(** * Customs-Autofill-Demo: HS-code tree builder and tree navigator

    A shallow embedding of [1_build_hscode_tree.py] (functions
    [parse_notes] and [build_tree]) and of [2_transverse_hscode_tree.py]
    (method [HSCClassifier.classify_product]), with the properties of the
    specification stated and settled against the embedded code.

    Modelling conventions.
    - A Python [str] is a [string]; its characters are read as code points
      below 256, so [len] is [String.length] and slicing is [substring].
    - A Python [dict] is an association list kept in insertion order:
      assigning to an existing key replaces the value in place, assigning
      to a new key appends the binding.
    - A pandas cell is either a [str] or the missing value [NaN].
    - The collaborator behind [_get_llm_choice] is a state-passing function
      from the values interpolated into the prompt to a response. *)

From Stdlib Require Import String Ascii List Bool Arith Lia ZArith.
From Stdlib Require Import DecimalString.
Import ListNotations.
Open Scope string_scope.
Open Scope list_scope.

(** ** Python strings *)

Module PyStr.

(** [str.isspace] on code points below 256: TAB..CR, FS..US, SPACE,
    NEL and NBSP. *)
Definition is_space (c : ascii) : bool :=
  let n := nat_of_ascii c in
  (((9 <=? n) && (n <=? 13)) || ((28 <=? n) && (n <=? 32))
   || (n =? 133) || (n =? 160))%nat.

Fixpoint lstrip (s : string) : string :=
  match s with
  | EmptyString => EmptyString
  | String c t => if is_space c then lstrip t else s
  end.

Fixpoint rstrip (s : string) : string :=
  match s with
  | EmptyString => EmptyString
  | String c t =>
      match rstrip t with
      | EmptyString => if is_space c then EmptyString else String c EmptyString
      | t' => String c t'
      end
  end.

(** [s.strip()] *)
Definition strip (s : string) : string := rstrip (lstrip s).

(** [needle in hay] *)
Fixpoint contains (needle hay : string) : bool :=
  prefix needle hay ||
  match hay with
  | EmptyString => false
  | String _ t => contains needle t
  end.

(** [sep.join(l)] *)
Fixpoint join (sep : string) (l : list string) : string :=
  match l with
  | [] => ""
  | [x] => x
  | x :: rest => (x ++ sep ++ join sep rest)%string
  end.

(** the one-character string ["\n"] *)
Definition nl : string := String (ascii_of_nat 10) EmptyString.

(** [c * n] for a character [c] *)
Fixpoint repeat_char (c : ascii) (n : nat) : string :=
  match n with
  | 0 => EmptyString
  | S n' => String c (repeat_char c n')
  end.

(** [str(n)] for a non-negative integer *)
Definition of_nat (n : nat) : string := NilZero.string_of_uint (Nat.to_uint n).

(** truth value of a string: non-empty *)
Definition truthy (s : string) : bool := negb (s =? "").

End PyStr.

(** ** Python dictionaries, insertion ordered *)

Module Dict.

Definition dict (V : Type) : Type := list (string * V).

Definition keys {V} (d : dict V) : list string := map fst d.

(** [d.get(k)] *)
Fixpoint get {V} (d : dict V) (k : string) : option V :=
  match d with
  | [] => None
  | (k', v) :: d' => if k' =? k then Some v else get d' k
  end.

(** [k in d] *)
Definition mem {V} (d : dict V) (k : string) : bool :=
  match get d k with Some _ => true | None => false end.

(** [d[k] = v] *)
Fixpoint set {V} (d : dict V) (k : string) (v : V) : dict V :=
  match d with
  | [] => [(k, v)]
  | (k', v') :: d' =>
      if k' =? k then (k', v) :: d' else (k', v') :: set d' k v
  end.

(** in-place mutation of the object stored at [d[k]], a key that is
    present wherever the program does this *)
Fixpoint update {V} (d : dict V) (k : string) (f : V -> V) : dict V :=
  match d with
  | [] => []
  | (k', v) :: d' =>
      if k' =? k then (k', f v) :: d' else (k', v) :: update d' k f
  end.

End Dict.

Import Dict.

(** ** The data frame *)

(** A cell of the frame: a string, or the missing value. *)
Inductive cell : Type :=
| NaN : cell
| Str : string -> cell.

(** [str(c)] *)
Definition py_str (c : cell) : string :=
  match c with
  | NaN => "nan"
  | Str s => s
  end.

(** [pd.isna(c)] *)
Definition isna (c : cell) : bool :=
  match c with
  | NaN => true
  | Str _ => false
  end.

(** One row of the frame, columns named as after the normalisation of
    [df.columns]; [A] is the type of its cells. *)
Record Row (A : Type) : Type := mkRow {
  HEADER : A;
  SUB : A;
  ITEM : A;
  DESCRIPTION : A;
  IMPORT_RATE : A;
  EKSPORT_RATE : A;
  SST : A
}.

Arguments mkRow {A}.
Arguments HEADER {A}.
Arguments SUB {A}.
Arguments ITEM {A}.
Arguments DESCRIPTION {A}.
Arguments IMPORT_RATE {A}.
Arguments EKSPORT_RATE {A}.
Arguments SST {A}.

Definition row_map {A B} (f : A -> B) (r : Row A) : Row B :=
  mkRow (f (HEADER r)) (f (SUB r)) (f (ITEM r)) (f (DESCRIPTION r))
        (f (IMPORT_RATE r)) (f (EKSPORT_RATE r)) (f (SST r)).

(** [df.fillna('')]: afterwards every cell is a string. *)
Definition fillna_cell (c : cell) : string :=
  match c with
  | NaN => ""
  | Str s => s
  end.

Definition fillna (df : list (Row cell)) : list (Row string) :=
  map (row_map fillna_cell) df.

(** A frame of strings seen as a frame of cells (none of them missing). *)
Definition as_cells (df : list (Row string)) : list (Row cell) :=
  map (row_map Str) df.

(** ** [parse_notes] *)

Module Notes.

Record state : Type := mkState {
  chapter_notes : dict string;
  current_key : option string;
  current_text : list string;
  in_note_block : bool
}.

Definition init : state := mkState [] None [] false.

(** [if current_key: chapter_notes[current_key] = "\n".join(current_text)] *)
Definition flush (st : state) : dict string :=
  match current_key st with
  | Some k =>
      if PyStr.truthy k
      then Dict.set (chapter_notes st) k (PyStr.join PyStr.nl (current_text st))
      else chapter_notes st
  | None => chapter_notes st
  end.

(** The body of the loop over [df.iterrows()]. *)
Definition step (st : state) (row : Row cell) : state :=
  let desc := PyStr.strip (py_str (DESCRIPTION row)) in
  let header := PyStr.strip (py_str (HEADER row)) in
  let is_chapter_note_start :=
    PyStr.contains "Chapter Notes." desc && (2 <=? String.length header)%nat in
  if is_chapter_note_start then
    mkState (flush st) (Some (substring 0 2 header)) [desc] true
  else if in_note_block st && isna (HEADER row) then
    mkState (chapter_notes st) (current_key st) (current_text st ++ [desc]) true
  else if in_note_block st then
    mkState (flush st) None [] false
  else st.

(** [parse_notes(df)]: the returned map (the same map is written to the
    notes artifact). *)
Definition parse_notes (df : list (Row cell)) : dict string :=
  flush (fold_left step df init).

(** [one_line v]: [v] is the stripped description of one row. *)
Definition one_line (df : list (Row string)) (v : string) : Prop :=
  exists row, In row df /\ v = PyStr.strip (DESCRIPTION row).

Definition single (df : list (Row string)) (st : state) : Prop :=
  Forall (fun kv => one_line df (snd kv)) (chapter_notes st) /\
  (current_key st = None \/ exists d, current_text st = [d] /\ one_line df d).

(** A row that starts a block. *)
Definition starts_block (row : Row cell) : bool :=
  PyStr.contains "Chapter Notes." (PyStr.strip (py_str (DESCRIPTION row)))
  && (2 <=? String.length (PyStr.strip (py_str (HEADER row))))%nat.

Definition desc_of (row : Row cell) : string :=
  PyStr.strip (py_str (DESCRIPTION row)).


End Notes.

(** ** The tree *)

(** A node of the tree.  [notes] and the three rates are what
    [node.get(...)] returns: [None] when the key is absent or holds
    [None].  Inner nodes carry [description], [notes] and [children];
    leaf items carry [description], the three rates and [children]. *)
#[warnings="-register-all"]
Inductive Node : Type := mkNode {
  description : string;
  notes : option string;
  import_rate : option string;
  export_rate : option string;
  sst_rate : option string;
  children : list (string * Node)
}.

Definition Tree : Type := dict Node.

(** [{"description": d, "notes": n, "children": {}}] *)
Definition inner_node (d : string) (n : option string) : Node :=
  mkNode d n None None None [].

(** [{"description": d, "import_rate": i, "export_rate": e, "sst_rate": s,
      "children": {}}] *)
Definition leaf_node (d i e s : string) : Node :=
  mkNode d None (Some i) (Some e) (Some s) [].

(** [node['description'] = d] *)
Definition set_description (d : string) (n : Node) : Node :=
  mkNode d (notes n) (import_rate n) (export_rate n) (sst_rate n) (children n).

(** mutation of [node['children']] *)
Definition on_children (f : Tree -> Tree) (n : Node) : Node :=
  mkNode (description n) (notes n) (import_rate n) (export_rate n) (sst_rate n)
         (f (children n)).

(** [node.get('description', default)]: every node the builder creates
    has the key. *)
Definition get_description (n : Node) (default : string) : string :=
  match Some (description n) with
  | Some d => d
  | None => default
  end.

(** Height of a node: the number of edges of its longest downward path. *)
Fixpoint height (n : Node) : nat :=
  match n with
  | mkNode _ _ _ _ _ ch =>
      (fix heights (l : list (string * Node)) : nat :=
         match l with
         | [] => 0
         | (_, c) :: l' => Nat.max (S (height c)) (heights l')
         end) ch
  end.

(** ** [build_tree] *)

Module Build.

(** ['z'*100] *)
Definition sentinel : string := PyStr.repeat_char "z"%char 100.

(** [if k not in d: d[k] = v] *)
Definition set_if_absent (k : string) (v : Node) (d : Tree) : Tree :=
  if Dict.mem d k then d else Dict.set d k v.

(** [if k not in d: d[k] = {"description": desc, "notes": None, "children": {}}]
    [else: d[k]['description'] = desc] *)
Definition create_or_describe (k desc : string) (d : Tree) : Tree :=
  if Dict.mem d k then Dict.update d k (set_description desc)
  else Dict.set d k (inner_node desc None).

(** The body of the loop over the rows: the tree after the row. *)
Definition process_row (chapter_notes : dict string) (hs_tree : Tree)
           (row : Row string) : Tree :=
  let header := HEADER row in
  let sub := SUB row in
  let item := ITEM row in
  let desc := PyStr.strip (DESCRIPTION row) in
  if negb (PyStr.truthy header) || negb (PyStr.truthy desc)
     || PyStr.contains "Notes." desc
  then hs_tree
  else
    let chapter_code := substring 0 2 header in
    let heading_code := header in
    let subheading_code := (header ++ sub)%string in
    let full_code := (header ++ sub ++ item)%string in
    (* Chapter Node (Level 1) *)
    let t1 :=
      set_if_absent chapter_code
        (inner_node "" (Dict.get chapter_notes chapter_code)) hs_tree in
    if negb (PyStr.truthy sub) && negb (PyStr.truthy item) then
      (* heading title row *)
      let t2 :=
        Dict.update t1 chapter_code
          (on_children (create_or_describe heading_code desc)) in
      Dict.update t2 chapter_code
        (fun g =>
           if (String.length desc <? String.length (get_description g sentinel))%nat
           then set_description desc g else g)
    else
      let t2 :=
        Dict.update t1 chapter_code
          (on_children (set_if_absent heading_code (inner_node "" None))) in
      if negb (PyStr.truthy item) then
        (* subheading title row *)
        Dict.update t2 chapter_code
          (on_children (fun hs =>
             Dict.update hs heading_code
               (on_children (create_or_describe subheading_code desc))))
      else
        let t3 :=
          Dict.update t2 chapter_code
            (on_children (fun hs =>
               Dict.update hs heading_code
                 (on_children
                    (set_if_absent subheading_code (inner_node "" None))))) in
        (* Leaf Node (Final Item) *)
        Dict.update t3 chapter_code
          (on_children (fun hs =>
             Dict.update hs heading_code
               (on_children (fun ss =>
                  Dict.update ss subheading_code
                    (on_children (fun ls =>
                       Dict.set ls full_code
                         (leaf_node desc (IMPORT_RATE row) (EKSPORT_RATE row)
                                    (SST row)))))))).

(** The loop of [build_tree] over a frame of strings, from the empty
    tree. *)
Definition build (chapter_notes : dict string) (df : list (Row string)) : Tree :=
  fold_left (process_row chapter_notes) df [].

(** A group that has no description. *)
Definition undescribed (kv : string * Node) : Prop := description (snd kv) = "".

(** The files the program reads and writes: the input table as
    [pd.read_csv(..., dtype=str)] returns it, and the two artifacts. *)
Record files : Type := mkFiles {
  input_csv : list (Row cell);
  tree_json : option Tree;
  notes_json : option (dict string)
}.

(** What [build_tree] does once past the cache check. *)
Definition build_body (fs : files) : files :=
  let df := fillna (input_csv fs) in
  let chapter_notes := Notes.parse_notes (as_cells df) in
  let hs_tree := build chapter_notes df in
  mkFiles (input_csv fs) (Some hs_tree) (Some chapter_notes).

(** [build_tree()] *)
Definition build_tree (fs : files) : files :=
  match tree_json fs with
  | Some _ => fs
  | None => build_body fs
  end.

End Build.

(** ** [HSCClassifier.classify_product] *)

Module Classify.

(** The parsed reply of [_get_llm_choice], taken to follow
    [JSON_RESPONSE_SCHEMA]; the retries of the decorator are not part of
    the model, which starts from the reply that is finally returned. *)
Record Response : Type := mkResponse {
  best_choice_code : string;
  justification : string;
  confidence_score : Z
}.

(** One line of [choices]: the code, the description and the lookahead
    text of a child. *)
Record Choice : Type := mkChoice {
  choice_code : string;
  choice_description : string;
  choice_lookahead : string
}.

(** The values interpolated into the prompt template. *)
Record Prompt : Type := mkPrompt {
  prompt_product_description : string;
  prompt_current_path_str : string;
  prompt_parent_notes : string;
  prompt_choices : list Choice
}.

(** An entry of [classification_path]; the fields are the keys ["code"],
    ["description"], ["justification"] and ["confidence"]. *)
Record Step : Type := mkStep {
  step_code : string;
  step_description : string;
  step_justification : string;
  step_confidence : Z
}.

(** [tariff_details] *)
Record Tariff : Type := mkTariff {
  tariff_import_rate : option string;
  tariff_export_rate : option string;
  tariff_sst_rate : option string
}.

Inductive PyException : Type :=
| IndexError : PyException.

(** How a call ends: with [final_result], with the dictionary
    [{"error": msg}], or with an exception that nothing catches. *)
Inductive Outcome : Type :=
| FinalResult (product_description : string) (full_path : list Step)
              (final_hs_code : string) (tariff_details : Tariff)
| ErrorObject (error : string)
| Raised (e : PyException).

Definition invalid_code_error : string := "LLM hallucinated an invalid code.".

(** [(has N sub-categories)] or [(final item)] *)
Definition lookahead (data : Node) : string :=
  match children data with
  | [] => "(final item)"
  | ch => ("(has " ++ PyStr.of_nat (List.length ch) ++ " sub-categories)")%string
  end.

(** The list [choices], in the order of [children.items()]. *)
Definition choices_of (ch : Tree) : list Choice :=
  map (fun kv => mkChoice (fst kv) (description (snd kv)) (lookahead (snd kv))) ch.

(** [node.get("notes") or "None"] *)
Definition notes_or_none (n : Node) : string :=
  match notes n with
  | Some s => if PyStr.truthy s then s else "None"
  | None => "None"
  end.

(** [" > ".join([step['description'] for step in classification_path])] *)
Definition breadcrumb (path : list Step) : string :=
  PyStr.join " > " (map step_description path).

(** [classification_path[-1]] *)
Definition last_step (path : list Step) : option Step :=
  match List.rev path with
  | [] => None
  | s :: _ => Some s
  end.

(** [{"children": self.hs_tree}]: the synthetic root has no other key,
    and its description is never read. *)
Definition root_of (hs_tree : Tree) : Node :=
  mkNode "" None None None None hs_tree.

Section WithOracle.

(** The oracle: its state and the reply it gives to a prompt. *)
Variable O : Type.
Variable ask : O -> Prompt -> Response * O.

(** The variables of the loop, and the state of the oracle. *)
Record loop_state : Type := mkLoop {
  classification_path : list Step;
  current_node_dict : Node;
  current_path_str : string;
  oracle : O
}.

Definition start (hs_tree : Tree) (o : O) : loop_state :=
  mkLoop [] (root_of hs_tree) "Start" o.

Definition prompt_of (product_description : string) (st : loop_state) : Prompt :=
  mkPrompt product_description (current_path_str st)
           (notes_or_none (current_node_dict st))
           (choices_of (children (current_node_dict st))).

(** The code the oracle answers at a loop state. *)
Definition answer (q : string) (st : loop_state) : string :=
  best_choice_code (fst (ask (oracle st) (prompt_of q st))).

(** One pass through the body of the [while] loop: either the state for
    the next test of the loop condition, or the value returned from
    inside the loop. *)
Definition iteration (product_description : string) (st : loop_state)
  : loop_state + Outcome :=
  let (response, o') := ask (oracle st) (prompt_of product_description st) in
  let chosen_code := best_choice_code response in
  match Dict.get (children (current_node_dict st)) chosen_code with
  | None => inr (ErrorObject invalid_code_error)
  | Some chosen_node_data =>
      let path :=
        classification_path st ++
          [mkStep chosen_code (description chosen_node_data)
                  (justification response) (confidence_score response)] in
      inl (mkLoop path chosen_node_data (breadcrumb path) o')
  end.

(** The statements after the loop. *)
Definition final_result (product_description : string) (st : loop_state)
  : Outcome :=
  match last_step (classification_path st) with
  | None => Raised IndexError
  | Some s =>
      FinalResult product_description (classification_path st) (step_code s)
        (mkTariff (import_rate (current_node_dict st))
                  (export_rate (current_node_dict st))
                  (sst_rate (current_node_dict st)))
  end.

(** The [while] loop and what follows it; [None] when [fuel] tests of
    the loop condition were not enough. *)
Fixpoint while_loop (fuel : nat) (product_description : string)
         (st : loop_state) : option Outcome :=
  match fuel with
  | 0 => None
  | S fuel' =>
      match children (current_node_dict st) with
      | [] => Some (final_result product_description st)
      | _ :: _ =>
          match iteration product_description st with
          | inl st' => while_loop fuel' product_description st'
          | inr r => Some r
          end
      end
  end.

(** [classify_product(product_description)] on the loaded tree. *)
Definition classify_product (fuel : nat) (hs_tree : Tree) (o : O)
           (product_description : string) : option Outcome :=
  while_loop fuel product_description (start hs_tree o).

(** [iterate n q st]: the loop state after [n] more passes through the
    loop body, each one entered on a node with children and left with
    a validated choice; [None] when the loop ends earlier. *)
Fixpoint iterate (n : nat) (product_description : string)
         (st : loop_state) : option loop_state :=
  match n with
  | 0 => Some st
  | S n' =>
      match children (current_node_dict st) with
      | [] => None
      | _ :: _ =>
          match iteration product_description st with
          | inl st' => iterate n' product_description st'
          | inr _ => None
          end
      end
  end.

End WithOracle.

Arguments classification_path {O}.
Arguments current_node_dict {O}.
Arguments current_path_str {O}.
Arguments oracle {O}.

(** An oracle without state that answers the code of the first listed
    choice. *)
Definition first_choice (_ : unit) (p : Prompt) : Response * unit :=
  match prompt_choices p with
  | c :: _ => (mkResponse (choice_code c) "first listed" 100%Z, tt)
  | [] => (mkResponse "" "nothing listed" 0%Z, tt)
  end.

(** An oracle that reads its answers from a script, one per call. *)
Definition scripted (script : list string) (_ : Prompt)
  : Response * list string :=
  match script with
  | c :: rest => (mkResponse c "scripted" 100%Z, rest)
  | [] => (mkResponse "" "script exhausted" 0%Z, [])
  end.

End Classify.

(** ** Code discipline of a tree *)

Module Codes.

(** [strict parent k]: [k] extends [parent] and is longer. *)
Definition strict (parent k : string) : bool :=
  prefix parent k && negb (k =? parent).

(** [weak parent k]: [k] extends [parent] or equals it. *)
Definition weak (parent k : string) : bool := prefix parent k.

(** The relation between the code of a node at depth [lvl] (the root is
    at depth 0) and the code of one of its children, as the builder
    keeps it: groups below the root and leaf items below subheadings
    are strict extensions, headings and subheadings are extensions. *)
Definition by_level (lvl : nat) (parent k : string) : bool :=
  match lvl with
  | 1 | 2 => weak parent k
  | _ => strict parent k
  end.

(** The relation of the specification: strict at every depth. *)
Definition always_strict (_ : nat) (parent k : string) : bool :=
  strict parent k.

Fixpoint nodupb (l : list string) : bool :=
  match l with
  | [] => true
  | x :: l' => negb (existsb (String.eqb x) l') && nodupb l'
  end.

(** [check_node rel lvl code n]: below the node [n], of code [code] and
    depth [lvl], no two siblings share a code and every child's code is
    related by [rel] to its parent's. *)
Fixpoint check_node (rel : nat -> string -> string -> bool) (lvl : nat)
         (code : string) (n : Node) : bool :=
  match n with
  | mkNode _ _ _ _ _ ch =>
      nodupb (keys ch) &&
      (fix check_all (l : list (string * Node)) : bool :=
         match l with
         | [] => true
         | (k, c) :: l' =>
             rel lvl code k && check_node rel (S lvl) k c && check_all l'
         end) ch
  end.

(** The same check on a children mapping. *)
Definition check_children (rel : nat -> string -> string -> bool) (lvl : nat)
           (code : string) (d : Tree) : bool :=
  nodupb (keys d) &&
  forallb (fun kv => rel lvl code (fst kv) && check_node rel (S lvl) (fst kv) (snd kv)) d.

(** The property that [check_children] decides, one level at a time. *)
Definition ok_binding (rel : nat -> string -> string -> bool) (lvl : nat)
           (code : string) (kv : string * Node) : Prop :=
  rel lvl code (fst kv) = true /\
  check_children rel (S lvl) (fst kv) (children (snd kv)) = true.

End Codes.

(** ** The inputs used in the examples *)

Module Examples.

(** The four rows of the specification's example, as [read_csv] returns
    them: an empty cell is missing. *)
Definition example_rows : list (Row cell) :=
  [ mkRow (Str "01") NaN NaN (Str "Live animals") NaN NaN NaN;
    mkRow (Str "0101") NaN NaN (Str "Live horses") NaN NaN NaN;
    mkRow (Str "0101") (Str "21") NaN (Str "Pure-bred breeding") NaN NaN NaN;
    mkRow (Str "0101") (Str "21") (Str "10") (Str "Horses")
          (Str "0%") (Str "0%") (Str "Free") ].

(** The tree artifact written for a table, starting without artifacts;
    [json.dump] followed by [json.load] gives the same mapping back. *)
Definition tree_of (rows : list (Row cell)) : Tree :=
  match Build.tree_json (Build.build_tree (Build.mkFiles rows None None)) with
  | Some t => t
  | None => []
  end.

Definition example_tree : Tree := tree_of example_rows.

(** A table with a single title row of a group. *)
Definition title_rows : list (Row cell) :=
  [ mkRow (Str "01") NaN NaN (Str "Live animals") NaN NaN NaN ].

(** A note block: the marker row, one continuation row with a missing
    header, and the row that ends the block. *)
Definition note_rows : list (Row cell) :=
  [ mkRow (Str "01") NaN NaN (Str "Chapter Notes.") NaN NaN NaN;
    mkRow NaN NaN NaN (Str "1. This Chapter covers all live animals.") NaN NaN NaN;
    mkRow (Str "0101") NaN NaN (Str "Live horses") NaN NaN NaN ].

(** A table whose only row is the title row of a subheading. *)
Definition subheading_rows : list (Row cell) :=
  [ mkRow (Str "0101") (Str "21") NaN (Str "Pure-bred breeding") NaN NaN NaN ].

(** [classify_product] with the oracle that takes the first listed
    choice. *)
Definition classify_first (fuel : nat) (t : Tree) (q : string)
  : option Classify.Outcome :=
  Classify.classify_product unit Classify.first_choice fuel t tt q.

(** [classify_product] with a scripted oracle. *)
Definition classify_scripted (fuel : nat) (t : Tree) (script : list string)
           (q : string) : option Classify.Outcome :=
  Classify.classify_product (list string) Classify.scripted fuel t script q.

(** A script whose third answer is not a choice of the node it is asked
    about. *)
Definition bad_script : list string := ["01"; "0101"; "0102"].

(** The loop state of the example tree after the two valid answers of
    [bad_script]. *)
Definition after_two_steps : Classify.loop_state (list string) :=
  match Classify.iterate (list string) Classify.scripted 2 "q"
          (Classify.start (list string) example_tree bad_script) with
  | Some st => st
  | None => Classify.start (list string) example_tree bad_script
  end.

End Examples.

(** ** Rows, paths and shapes *)

Module Rows.

(** The test of the [continue] at the head of the builder's loop: the row
    has no header, or no description, or its description holds a notes
    marker. *)
Definition skipped (row : Row string) : bool :=
  negb (PyStr.truthy (HEADER row))
  || negb (PyStr.truthy (PyStr.strip (DESCRIPTION row)))
  || PyStr.contains "Notes." (PyStr.strip (DESCRIPTION row)).

(** A row that reaches the last statement of the loop body. *)
Definition is_leaf_row (row : Row string) : bool :=
  negb (skipped row) && PyStr.truthy (ITEM row).

(** The four keys under which the loop body files a row. *)
Definition slot (row : Row string) : list string :=
  [ substring 0 2 (HEADER row);
    HEADER row;
    (HEADER row ++ SUB row)%string;
    (HEADER row ++ SUB row ++ ITEM row)%string ].

(** The leaf that the loop body stores for a row. *)
Definition leaf_of (row : Row string) : Node :=
  leaf_node (PyStr.strip (DESCRIPTION row)) (IMPORT_RATE row)
            (EKSPORT_RATE row) (SST row).

(** Two rows with the same HEADER, SUB and ITEM. *)
Definition same_codes (r r' : Row string) : Prop :=
  HEADER r = HEADER r' /\ SUB r = SUB r' /\ ITEM r = ITEM r'.

(** [noted df kv]: the entry [kv] of a notes map is the stripped
    description of one marker row of [df], filed under the first two
    characters of that row's stripped header. *)
Definition noted (df : list (Row string)) (kv : string * string) : Prop :=
  exists row,
    In row df
    /\ Notes.starts_block (row_map Str row) = true
    /\ fst kv = substring 0 2 (PyStr.strip (HEADER row))
    /\ snd kv = PyStr.strip (DESCRIPTION row).

(** The state of the notes loop while every entry and the open block come
    from marker rows of [df] alone. *)
Definition noted_state (df : list (Row string)) (st : Notes.state) : Prop :=
  Forall (noted df) (Notes.chapter_notes st)
  /\ (Notes.current_key st = None
      \/ exists k d, Notes.current_key st = Some k
                     /\ Notes.current_text st = [d] /\ noted df (k, d)).

(** The state of the notes loop with well-formed keys and values: keys of
    two characters, no key twice, and the marker in every value and in the
    first line of the open block. *)
Definition keyed_state (st : Notes.state) : Prop :=
  Forall (fun kv => String.length (fst kv) = 2
                    /\ PyStr.contains "Chapter Notes." (snd kv) = true)
         (Notes.chapter_notes st)
  /\ NoDup (keys (Notes.chapter_notes st))
  /\ (Notes.current_key st = None
      \/ exists k d rest, Notes.current_key st = Some k
                          /\ String.length k = 2
                          /\ Notes.current_text st = d :: rest
                          /\ PyStr.contains "Chapter Notes." d = true).

(** A row of the filled frame that neither pass reads: the builder skips
    it and it starts no note block. *)
Definition unread (row : Row string) : bool :=
  skipped row && negb (Notes.starts_block (row_map Str row)).

(** A group that carries the note filed under its own code, if any. *)
Definition notes_from (chapter_notes : dict string) (kv : string * Node) : Prop :=
  notes (snd kv) = Dict.get chapter_notes (fst kv).

End Rows.

Module Paths.

(** [find d path]: the node reached from the mapping [d] by taking the
    keys of [path] in turn, [d[k1]['children'][k2]...]; [None] when a key
    is missing or [path] is empty. *)
Fixpoint find (d : Tree) (path : list string) : option Node :=
  match path with
  | [] => None
  | k :: rest =>
      match Dict.get d k with
      | None => None
      | Some n =>
          match rest with
          | [] => Some n
          | _ :: _ => find (children n) rest
          end
      end
  end.

(** [trace n path]: the node reached from [n] by the codes of the steps of
    [path], provided every step records the description of the node it
    enters. *)
Fixpoint trace (n : Node) (path : list Classify.Step) : option Node :=
  match path with
  | [] => Some n
  | s :: rest =>
      match Dict.get (children n) (Classify.step_code s) with
      | None => None
      | Some c =>
          if description c =? Classify.step_description s
          then trace c rest
          else None
      end
  end.

(** [keeps F path]: the mutation [F] of a mapping leaves in place whatever
    node [path] leads to. *)
Definition keeps (F : Tree -> Tree) (path : list string) : Prop :=
  forall d n, find d path = Some n -> find (F d) path = Some n.

End Paths.

Module Shape.

Definition no_rates (n : Node) : bool :=
  match import_rate n, export_rate n, sst_rate n with
  | None, None, None => true
  | _, _, _ => false
  end.

Definition all_rates (n : Node) : bool :=
  match import_rate n, export_rate n, sst_rate n with
  | Some _, Some _, Some _ => true
  | _, _, _ => false
  end.

Definition no_notes (n : Node) : bool :=
  match notes n with
  | None => true
  | Some _ => false
  end.

Definition childless (n : Node) : bool :=
  match children n with
  | [] => true
  | _ :: _ => false
  end.

(** What the builder stores at each depth: groups (depth 1) without
    rates; headings and subheadings (depths 2 and 3) without rates and
    without notes; leaf items (depth 4) with the three rates, without
    notes and without children; nothing deeper. *)
Definition node_shape (lvl : nat) (n : Node) : bool :=
  match lvl with
  | 1 => no_rates n
  | 2 | 3 => no_rates n && no_notes n
  | 4 => all_rates n && no_notes n && childless n
  | _ => false
  end.

(** Every node below [n], itself at depth [lvl], has the shape of its
    depth. *)
Fixpoint shaped_node (lvl : nat) (n : Node) : bool :=
  match n with
  | mkNode _ _ _ _ _ ch =>
      (fix shaped_all (l : list (string * Node)) : bool :=
         match l with
         | [] => true
         | (_, c) :: l' =>
             node_shape (S lvl) c && shaped_node (S lvl) c && shaped_all l'
         end) ch
  end.

(** The same for the children mapping of a node at depth [lvl]. *)
Definition shaped (lvl : nat) (d : Tree) : bool :=
  forallb (fun kv => node_shape (S lvl) (snd kv) && shaped_node (S lvl) (snd kv)) d.

(** What [shaped] asks of one binding. *)
Definition good (lvl : nat) (kv : string * Node) : Prop :=
  node_shape (S lvl) (snd kv) = true /\ shaped (S lvl) (children (snd kv)) = true.

End Shape.

(** ** [HSCClassifier.__init__] *)

Module Loader.

Inductive LoadError : Type :=
| FileNotFoundError : LoadError.

(** The constructor: the tree it keeps in [self.hs_tree], or the
    exception it raises when the tree artifact does not exist. *)
Definition init (fs : Build.files) : Tree + LoadError :=
  match Build.tree_json fs with
  | Some t => inl t
  | None => inr FileNotFoundError
  end.

End Loader.

(** ** More inputs for examples *)

Module MoreExamples.

Import Examples.

(** The example table after [fillna]. *)
Definition filled_rows : list (Row string) := fillna example_rows.




(** Two leaf rows of one subheading, and the title rows before them. *)
Definition horse_row : Row string :=
  mkRow "0101" "21" "10" "Horses" "0%" "0%" "Free".

Definition ass_row : Row string :=
  mkRow "0101" "21" "20" "Asses" "5%" "0%" "Free".

Definition title_part : list (Row string) :=
  [ mkRow "01" "" "" "Live animals" "" "" "";
    mkRow "0101" "" "" "Live horses" "" "" "";
    mkRow "0101" "21" "" "Pure-bred breeding" "" "" "" ].

(** The script that leads to the leaf of the example tree, and the loop
    state it ends in. *)
Definition leaf_script : list string := ["01"; "0101"; "010121"; "01012110"].

Definition at_leaf : Classify.loop_state (list string) :=
  match Classify.iterate (list string) Classify.scripted 4 "q"
          (Classify.start (list string) example_tree leaf_script) with
  | Some st => st
  | None => Classify.start (list string) example_tree leaf_script
  end.

(** A table whose only row is a leaf row with an empty SUB: its leaf item
    has the six-character code ["010110"]. *)
Definition short_leaf_rows : list (Row cell) :=
  [ mkRow (Str "0101") NaN (Str "10") (Str "Other live horses")
          (Str "5%") NaN (Str "10%") ].

Definition short_leaf_script : list string := ["01"; "0101"; "0101"; "010110"].

(** The script that leads to the childless subheading of
    [subheading_rows], and the loop state it ends in. *)
Definition subheading_script : list string := ["01"; "0101"; "010121"].

Definition at_subheading : Classify.loop_state (list string) :=
  match Classify.iterate (list string) Classify.scripted 3 "q"
          (Classify.start (list string) (tree_of subheading_rows)
             subheading_script) with
  | Some st => st
  | None => Classify.start (list string) (tree_of subheading_rows)
              subheading_script
  end.

End MoreExamples.

(** * Properties *)

(** ** Facts about strings *)

Module PyStrFacts.

Lemma prefix_empty : forall s, prefix "" s = true.
Proof. intros [|c s]; reflexivity. Qed.

Lemma prefix_refl : forall s, prefix s s = true.
Proof.
  induction s as [|c s IH]; simpl; [reflexivity|].
  destruct (ascii_dec c c); [exact IH | congruence].
Qed.

Lemma prefix_append : forall a b, prefix a (a ++ b) = true.
Proof.
  induction a as [|c a IH]; intros b; simpl; [apply prefix_empty|].
  destruct (ascii_dec c c); [apply IH | congruence].
Qed.

Lemma prefix_substring : forall n s, prefix (substring 0 n s) s = true.
Proof.
  induction n as [|n IH]; intros [|c s]; simpl; try reflexivity.
  destruct (ascii_dec c c); [apply IH | congruence].
Qed.

Lemma append_assoc : forall a b c : string, (a ++ b ++ c = (a ++ b) ++ c)%string.
Proof.
  induction a as [|x a IH]; intros b c; simpl; [reflexivity|].
  now rewrite IH.
Qed.

Lemma length_append : forall a b : string,
    String.length (a ++ b) = String.length a + String.length b.
Proof.
  induction a as [|x a IH]; intros b; simpl; [reflexivity|].
  now rewrite IH.
Qed.

Lemma truthy_nonempty : forall s, PyStr.truthy s = true -> s <> "".
Proof.
  intros s H ->. discriminate H.
Qed.

Lemma truthy_length : forall s, PyStr.truthy s = true -> 0 < String.length s.
Proof.
  intros [|c s] H; [discriminate H | simpl; lia].
Qed.

Lemma substring_nonempty : forall s,
    PyStr.truthy s = true -> substring 0 2 s <> "".
Proof.
  intros [|c s] H; [discriminate H | simpl; discriminate].
Qed.

Lemma append_longer : forall a b : string,
    PyStr.truthy b = true -> (a ++ b)%string <> a.
Proof.
  intros a b Hb Heq.
  apply truthy_length in Hb.
  assert (Hl : String.length (a ++ b) = String.length a) by now rewrite Heq.
  rewrite length_append in Hl. lia.
Qed.

End PyStrFacts.

(** ** Facts about dictionaries *)

Module DictFacts.

Section WithValues.

Context {V : Type}.
Implicit Types (d : dict V) (k : string) (v : V).

Lemma get_set_same : forall d k v, Dict.get (Dict.set d k v) k = Some v.
Proof.
  induction d as [|[k' v'] d IH]; intros k v; simpl.
  - now rewrite String.eqb_refl.
  - destruct (k' =? k) eqn:E; simpl; rewrite E; [reflexivity | apply IH].
Qed.

Lemma get_set_other : forall d k k' v,
    k <> k' -> Dict.get (Dict.set d k v) k' = Dict.get d k'.
Proof.
  induction d as [|[k0 v0] d IH]; intros k k' v Hne; simpl.
  - destruct (k =? k') eqn:E; [apply String.eqb_eq in E; contradiction | reflexivity].
  - destruct (k0 =? k) eqn:E; simpl.
    + apply String.eqb_eq in E; subst k0.
      destruct (k =? k') eqn:E'; [apply String.eqb_eq in E'; contradiction | reflexivity].
    + destruct (k0 =? k'); [reflexivity | now apply IH].
Qed.

Lemma get_update_same : forall d k f,
    Dict.get (Dict.update d k f) k = option_map f (Dict.get d k).
Proof.
  induction d as [|[k' v'] d IH]; intros k f; simpl; [reflexivity|].
  destruct (k' =? k) eqn:E; simpl; rewrite E; [reflexivity | apply IH].
Qed.

Lemma get_update_other : forall d k k' f,
    k <> k' -> Dict.get (Dict.update d k f) k' = Dict.get d k'.
Proof.
  induction d as [|[k0 v0] d IH]; intros k k' f Hne; simpl; [reflexivity|].
  destruct (k0 =? k) eqn:E; simpl.
  - apply String.eqb_eq in E; subst k0.
    destruct (k =? k') eqn:E'; [apply String.eqb_eq in E'; contradiction | reflexivity].
  - destruct (k0 =? k'); [reflexivity | now apply IH].
Qed.

Lemma keys_update : forall d k f, keys (Dict.update d k f) = keys d.
Proof.
  induction d as [|[k' v'] d IH]; intros k f; simpl; [reflexivity|].
  destruct (k' =? k); simpl; [reflexivity | now rewrite IH].
Qed.

Lemma get_In : forall d k v, Dict.get d k = Some v -> In (k, v) d.
Proof.
  induction d as [|[k' v'] d IH]; intros k v; simpl; [discriminate|].
  destruct (k' =? k) eqn:E.
  - apply String.eqb_eq in E. intros [= ->]. left. now subst.
  - intros H. right. now apply IH.
Qed.

Lemma get_None_keys : forall d k, Dict.get d k = None -> ~ In k (keys d).
Proof.
  induction d as [|[k' v'] d IH]; intros k; simpl; [tauto|].
  destruct (k' =? k) eqn:E; [discriminate|].
  apply String.eqb_neq in E.
  intros H [Hk | Hk]; [contradiction | now apply (IH k)].
Qed.

Lemma keys_set : forall d k v,
    keys (Dict.set d k v) = if Dict.mem d k then keys d else keys d ++ [k].
Proof.
  unfold Dict.mem.
  induction d as [|[k' v'] d IH]; intros k v; simpl; [reflexivity|].
  destruct (k' =? k) eqn:E; simpl; [reflexivity|].
  rewrite IH. now destruct (Dict.get d k).
Qed.

Lemma NoDup_keys_set : forall d k v,
    NoDup (keys d) -> NoDup (keys (Dict.set d k v)).
Proof.
  intros d k v Hd. rewrite keys_set. unfold Dict.mem.
  destruct (Dict.get d k) eqn:E; [exact Hd|].
  apply get_None_keys in E.
  apply NoDup_rev in Hd.
  rewrite <- (rev_involutive (keys d ++ [k])).
  apply NoDup_rev. rewrite rev_app_distr. simpl.
  constructor; [rewrite <- in_rev; exact E | exact Hd].
Qed.

(** What holds of every binding still holds after an assignment, if
    it holds of the new binding. *)
Lemma Forall_set : forall (P : string * V -> Prop) d k v,
    Forall P d -> P (k, v) -> Forall P (Dict.set d k v).
Proof.
  intros P.
  induction d as [|[k' v'] d IH]; intros k v Hd Hkv; simpl.
  - constructor; [exact Hkv | constructor].
  - inversion Hd as [|x l Hx Hl]; subst.
    destruct (k' =? k) eqn:E.
    + apply String.eqb_eq in E; subst k'. constructor; assumption.
    + constructor; [assumption | now apply IH].
Qed.

(** What holds of every binding still holds after a mutation of the
    value at [k], if the mutation keeps it at [k]. *)
Lemma Forall_update : forall (P : string * V -> Prop) d k f,
    Forall P d -> (forall v, P (k, v) -> P (k, f v)) ->
    Forall P (Dict.update d k f).
Proof.
  intros P.
  induction d as [|[k' v'] d IH]; intros k f Hd Hf; simpl; [constructor|].
  inversion Hd as [|x l Hx Hl]; subst.
  destruct (k' =? k) eqn:E.
  - apply String.eqb_eq in E; subst k'. constructor; [now apply Hf | assumption].
  - constructor; [assumption | now apply IH].
Qed.

End WithValues.

End DictFacts.

(** ** Facts about the code discipline *)

Module CodesFacts.

Import Codes.

Lemma nodupb_NoDup : forall l, nodupb l = true <-> NoDup l.
Proof.
  induction l as [|x l IH]; simpl.
  - split; [constructor | reflexivity].
  - rewrite andb_true_iff, negb_true_iff, IH. split.
    + intros [Hx Hl]. constructor; [|exact Hl].
      intros Hin.
      assert (Hex : existsb (String.eqb x) l = true)
        by (apply existsb_exists; exists x; split; [exact Hin | apply String.eqb_refl]).
      congruence.
    + intros Hnd. inversion Hnd as [|y l' Hx Hl]; subst. split; [|exact Hl].
      destruct (existsb (String.eqb x) l) eqn:E; [|reflexivity].
      apply existsb_exists in E. destruct E as [y [Hy Hxy]].
      apply String.eqb_eq in Hxy. subst y. contradiction.
Qed.

Lemma check_node_children : forall rel lvl code n,
    check_node rel lvl code n = check_children rel lvl code (children n).
Proof.
  intros rel lvl code [d no i e s ch]. unfold check_children. simpl.
  f_equal.
  induction ch as [|[k c] ch IH]; simpl; [reflexivity|].
  now rewrite IH.
Qed.


Lemma check_children_iff : forall rel lvl code d,
    check_children rel lvl code d = true <->
    NoDup (keys d) /\ Forall (ok_binding rel lvl code) d.
Proof.
  intros rel lvl code d. unfold check_children.
  rewrite andb_true_iff, nodupb_NoDup, forallb_forall, Forall_forall.
  unfold ok_binding.
  split; intros [Hnd H]; (split; [exact Hnd|]); intros kv Hin;
    specialize (H kv Hin).
  - rewrite andb_true_iff, check_node_children in H. exact H.
  - rewrite andb_true_iff, check_node_children. exact H.
Qed.

Lemma check_children_nil : forall rel lvl code,
    check_children rel lvl code [] = true.
Proof. reflexivity. Qed.

Lemma check_set : forall rel lvl code d k v,
    check_children rel lvl code d = true ->
    rel lvl code k = true ->
    check_children rel (S lvl) k (children v) = true ->
    check_children rel lvl code (Dict.set d k v) = true.
Proof.
  intros rel lvl code d k v Hd Hk Hv.
  apply check_children_iff in Hd. destruct Hd as [Hnd Hall].
  apply check_children_iff. split.
  - now apply DictFacts.NoDup_keys_set.
  - apply DictFacts.Forall_set; [exact Hall | split; assumption].
Qed.

Lemma check_update : forall rel lvl code d k f,
    check_children rel lvl code d = true ->
    (forall v, check_children rel (S lvl) k (children v) = true ->
               check_children rel (S lvl) k (children (f v)) = true) ->
    check_children rel lvl code (Dict.update d k f) = true.
Proof.
  intros rel lvl code d k f Hd Hf.
  apply check_children_iff in Hd. destruct Hd as [Hnd Hall].
  apply check_children_iff. split.
  - now rewrite DictFacts.keys_update.
  - apply DictFacts.Forall_update; [exact Hall|].
    intros v [Hrel Hv]. split; [exact Hrel | now apply Hf].
Qed.

Lemma strict_append : forall a b,
    PyStr.truthy b = true -> strict a (a ++ b) = true.
Proof.
  intros a b Hb. unfold strict.
  rewrite PyStrFacts.prefix_append. simpl.
  apply negb_true_iff, String.eqb_neq.
  now apply PyStrFacts.append_longer.
Qed.

Lemma strict_group : forall header,
    PyStr.truthy header = true -> strict "" (substring 0 2 header) = true.
Proof.
  intros header H. unfold strict.
  rewrite PyStrFacts.prefix_empty. simpl.
  apply negb_true_iff, String.eqb_neq.
  now apply PyStrFacts.substring_nonempty.
Qed.

End CodesFacts.

(** ** Facts about the builder *)

Module BuildFacts.

Import Build Codes CodesFacts.

Lemma children_on_children : forall f n, children (on_children f n) = f (children n).
Proof. reflexivity. Qed.

Lemma children_set_description : forall d n,
    children (set_description d n) = children n.
Proof. reflexivity. Qed.

Lemma description_on_children : forall f n,
    description (on_children f n) = description n.
Proof. reflexivity. Qed.

(** The keys that the loop body mutates in place are present. *)
Lemma mem_set_if_absent : forall k v d, Dict.mem (set_if_absent k v d) k = true.
Proof.
  intros k v d. unfold set_if_absent.
  destruct (Dict.mem d k) eqn:E; [exact E|].
  unfold Dict.mem. now rewrite DictFacts.get_set_same.
Qed.

Lemma mem_create_or_describe : forall k desc d,
    Dict.mem (create_or_describe k desc d) k = true.
Proof.
  intros k desc d. unfold create_or_describe.
  destruct (Dict.mem d k) eqn:E.
  - unfold Dict.mem in *. rewrite DictFacts.get_update_same.
    now destruct (Dict.get d k).
  - unfold Dict.mem. now rewrite DictFacts.get_set_same.
Qed.

Lemma mem_update : forall (d : Tree) k k' f,
    Dict.mem (Dict.update d k f) k' = Dict.mem d k'.
Proof.
  intros d k k' f. unfold Dict.mem.
  destruct (String.eqb_spec k k') as [->|Hne].
  - rewrite DictFacts.get_update_same. now destruct (Dict.get d k').
  - now rewrite DictFacts.get_update_other.
Qed.

Section Discipline.

Variable rel : nat -> string -> string -> bool.

Lemma check_set_if_absent : forall lvl code k v d,
    check_children rel lvl code d = true ->
    rel lvl code k = true ->
    check_children rel (S lvl) k (children v) = true ->
    check_children rel lvl code (set_if_absent k v d) = true.
Proof.
  intros lvl code k v d Hd Hk Hv. unfold set_if_absent.
  destruct (Dict.mem d k); [exact Hd | now apply check_set].
Qed.

Lemma check_create_or_describe : forall lvl code k desc d,
    check_children rel lvl code d = true ->
    rel lvl code k = true ->
    check_children rel lvl code (create_or_describe k desc d) = true.
Proof.
  intros lvl code k desc d Hd Hk. unfold create_or_describe.
  destruct (Dict.mem d k).
  - apply check_update; [exact Hd|]. intros v Hv. exact Hv.
  - apply check_set; [exact Hd | exact Hk | reflexivity].
Qed.

(** The four facts about codes that the rows must provide. *)
Hypothesis rel_group : forall header,
    PyStr.truthy header = true -> rel 0 "" (substring 0 2 header) = true.
Hypothesis rel_heading : forall header,
    rel 1 (substring 0 2 header) header = true.
Hypothesis rel_subheading : forall header sub,
    rel 2 header (header ++ sub) = true.
Hypothesis rel_leaf : forall header sub item,
    PyStr.truthy item = true ->
    rel 3 (header ++ sub) (header ++ sub ++ item) = true.

Lemma process_row_check : forall chapter_notes hs_tree row,
    check_children rel 0 "" hs_tree = true ->
    check_children rel 0 "" (process_row chapter_notes hs_tree row) = true.
Proof.
  intros chapter_notes hs_tree row Ht. unfold process_row.
  destruct (PyStr.truthy (HEADER row)) eqn:Hh; simpl; [|exact Ht].
  destruct (PyStr.truthy (PyStr.strip (DESCRIPTION row))) eqn:Hd; simpl; [|exact Ht].
  destruct (PyStr.contains "Notes." (PyStr.strip (DESCRIPTION row))); [exact Ht|].
  assert (H1 : check_children rel 0 ""
                 (set_if_absent (substring 0 2 (HEADER row))
                    (inner_node "" (Dict.get chapter_notes (substring 0 2 (HEADER row))))
                    hs_tree) = true)
    by (apply check_set_if_absent; [exact Ht | now apply rel_group | reflexivity]).
  destruct (PyStr.truthy (SUB row)) eqn:Hs; simpl.
  2: destruct (PyStr.truthy (ITEM row)) eqn:Hi; simpl.
  3: {
    (* heading title row *)
    apply check_update.
    - apply check_update; [exact H1|].
      intros g Hg. rewrite children_on_children.
      apply check_create_or_describe; [exact Hg | apply rel_heading].
    - intros g Hg.
      destruct (String.length _ <? String.length _)%nat; exact Hg. }
  all: destruct (PyStr.truthy (ITEM row)) eqn:Hi'; simpl;
    try discriminate;
    repeat first
      [ exact H1
      | assumption
      | reflexivity
      | rewrite children_on_children
      | apply check_create_or_describe
      | apply check_set_if_absent
      | apply check_set
      | apply rel_heading
      | apply rel_subheading
      | apply rel_leaf
      | apply check_update; [|intros ? ?] ].
Qed.

Lemma build_check : forall chapter_notes df,
    check_children rel 0 "" (build chapter_notes df) = true.
Proof.
  intros chapter_notes df. unfold build.
  assert (H : check_children rel 0 "" [] = true) by reflexivity.
  revert H. generalize (@nil (string * Node)).
  induction df as [|row df IH]; intros t Ht; simpl; [exact Ht|].
  apply IH. now apply process_row_check.
Qed.

End Discipline.

End BuildFacts.

(** ** The description of a group *)

Module GroupDescription.

Import Build.

(** The test that guards the assignment of a group's description fails
    on a group whose description is empty. *)
Lemma shorter_than_empty : forall desc g,
    description g = "" ->
    (String.length desc <? String.length (get_description g sentinel))%nat = false.
Proof.
  intros desc g Hg. unfold get_description. rewrite Hg. simpl.
  apply Nat.ltb_ge. lia.
Qed.

Lemma process_row_undescribed : forall chapter_notes hs_tree row,
    Forall undescribed hs_tree ->
    Forall undescribed (process_row chapter_notes hs_tree row).
Proof.
  intros chapter_notes hs_tree row Ht. unfold process_row.
  destruct (negb (PyStr.truthy (HEADER row)) || negb (PyStr.truthy (PyStr.strip (DESCRIPTION row)))
            || PyStr.contains "Notes." (PyStr.strip (DESCRIPTION row))); [exact Ht|].
  assert (H1 : Forall undescribed
                 (set_if_absent (substring 0 2 (HEADER row))
                    (inner_node "" (Dict.get chapter_notes (substring 0 2 (HEADER row))))
                    hs_tree)).
  { unfold set_if_absent. destruct (Dict.mem hs_tree _); [exact Ht|].
    apply DictFacts.Forall_set; [exact Ht | reflexivity]. }
  assert (Hkeep : forall f t k, Forall undescribed t ->
                    Forall undescribed (Dict.update t k (on_children f))).
  { intros f t k H. apply DictFacts.Forall_update; [exact H|].
    intros v Hv. exact Hv. }
  destruct (negb (PyStr.truthy (SUB row)) && negb (PyStr.truthy (ITEM row))).
  - apply DictFacts.Forall_update; [now apply Hkeep|].
    intros g Hg. unfold undescribed in *. simpl in *.
    now rewrite (shorter_than_empty _ g Hg).
  - destruct (negb (PyStr.truthy (ITEM row))); repeat apply Hkeep; exact H1.
Qed.

(** Whatever the rows, no group of the built tree has a description. *)
Lemma build_undescribed : forall chapter_notes df,
    Forall undescribed (build chapter_notes df).
Proof.
  intros chapter_notes df. unfold build.
  assert (H : Forall undescribed []) by constructor.
  revert H. generalize (@nil (string * Node)).
  induction df as [|row df IH]; intros t Ht; simpl; [exact Ht|].
  apply IH. now apply process_row_undescribed.
Qed.

Lemma group_description_empty : forall chapter_notes df code g,
    Dict.get (build chapter_notes df) code = Some g -> description g = "".
Proof.
  intros chapter_notes df code g Hg.
  apply DictFacts.get_In in Hg.
  pose proof (build_undescribed chapter_notes df) as H.
  rewrite Forall_forall in H. exact (H _ Hg).
Qed.

End GroupDescription.

(** ** Facts about [parse_notes] *)

Module NotesFacts.

Import Notes.

(** *** On a frame without missing cells *)

Section Filled.

Variable df : list (Row string).

#[local] Abbreviation one_line := (Notes.one_line df).
#[local] Abbreviation single := (Notes.single df).


Lemma flush_single : forall st,
    single st -> Forall (fun kv => one_line (snd kv)) (flush st).
Proof.
  intros st [Hall Hcur]. unfold flush.
  destruct (current_key st) as [k|]; [|exact Hall].
  destruct (PyStr.truthy k); [|exact Hall].
  destruct Hcur as [Hk | [d [Ht Hd]]]; [discriminate|].
  apply DictFacts.Forall_set; [exact Hall|].
  rewrite Ht. exact Hd.
Qed.

Lemma step_single : forall st row,
    In row df -> single st -> single (step st (row_map Str row)).
Proof.
  intros st row Hin Hst. unfold step.
  cbn [row_map HEADER DESCRIPTION py_str isna].
  destruct (PyStr.contains "Chapter Notes." (PyStr.strip (DESCRIPTION row))
            && (2 <=? String.length (PyStr.strip (HEADER row)))%nat).
  - split; cbn [chapter_notes current_key current_text];
      [now apply flush_single|].
    right. eexists. split; [reflexivity|]. now exists row.
  - rewrite andb_false_r.
    destruct (in_note_block st); [|exact Hst].
    split; cbn [chapter_notes current_key current_text];
      [now apply flush_single | now left].
Qed.

Lemma fold_single : forall rows st,
    incl rows df -> single st ->
    single (fold_left step (as_cells rows) st).
Proof.
  induction rows as [|row rows IH]; intros st Hincl Hst; simpl; [exact Hst|].
  apply IH.
  - intros r Hr. apply Hincl. now right.
  - apply step_single; [apply Hincl; now left | exact Hst].
Qed.

(** On the frame that [build_tree] passes, every note is the stripped
    description of a single row: no row is ever appended to a block. *)
Lemma filled_notes_one_line : forall k v,
    Dict.get (parse_notes (as_cells df)) k = Some v -> one_line v.
Proof.
  intros k v Hget. unfold parse_notes in Hget.
  apply DictFacts.get_In in Hget.
  assert (Hs : single (fold_left step (as_cells df) init)).
  { apply fold_single; [apply incl_refl|].
    split; [constructor | now left]. }
  apply flush_single in Hs. rewrite Forall_forall in Hs.
  exact (Hs _ Hget).
Qed.

End Filled.

(** *** On a frame with missing cells *)




End NotesFacts.

(** ** Facts about the navigation loop *)

Module ClassifyFacts.

Import Classify.

(** A child is lower than its parent. *)
Lemma height_get : forall n k c,
    Dict.get (children n) k = Some c -> height c < height n.
Proof.
  intros [d no i e s ch] k c. cbn -[Nat.max].
  induction ch as [|[k' c'] ch IH]; cbn -[Nat.max]; [discriminate|].
  destruct (k' =? k).
  - intros [= ->]. lia.
  - intros H. specialize (IH H). lia.
Qed.

Lemma height_childless : forall n, children n = [] -> height n = 0.
Proof. intros [d no i e s ch]; simpl; intros ->; reflexivity. Qed.

Lemma height_parent : forall n, children n <> [] -> 0 < height n.
Proof.
  intros [d no i e s [|[k c] ch]]; cbn -[Nat.max]; [congruence | lia].
Qed.

Section WithOracle.

Variable O : Type.
Variable ask : O -> Prompt -> Response * O.

#[local] Abbreviation loop_state := (loop_state O).
#[local] Abbreviation iteration := (iteration O ask).
#[local] Abbreviation iterate := (iterate O ask).
#[local] Abbreviation while_loop := (while_loop O ask).
#[local] Abbreviation classify_product := (classify_product O ask).
#[local] Abbreviation answer := (answer O ask).


(** A pass ends in one of two ways, decided by the validation alone. *)
Lemma iteration_invalid : forall q st,
    Dict.mem (children (current_node_dict st)) (answer q st) = false ->
    iteration q st = inr (ErrorObject invalid_code_error).
Proof.
  intros q st. unfold answer, Dict.mem, iteration.
  destruct (ask (oracle st) (prompt_of O q st)) as [response o']. simpl.
  destruct (Dict.get _ _); [discriminate | reflexivity].
Qed.

Lemma iteration_valid : forall q st st',
    iteration q st = inl st' ->
    Dict.get (children (current_node_dict st)) (answer q st)
      = Some (current_node_dict st') /\
    exists s, step_code s = answer q st /\
              classification_path st' = classification_path st ++ [s].
Proof.
  intros q st st'. unfold answer, iteration.
  destruct (ask (oracle st) (prompt_of O q st)) as [response o']. simpl.
  destruct (Dict.get _ _) as [c|]; [|discriminate].
  intros [= <-]. simpl. split; [reflexivity|].
  eexists. split; [|reflexivity]. reflexivity.
Qed.

Lemma iteration_abort : forall q st r,
    iteration q st = inr r -> r = ErrorObject invalid_code_error.
Proof.
  intros q st r. unfold iteration.
  destruct (ask (oracle st) (prompt_of O q st)) as [response o'].
  destruct (Dict.get _ _); [discriminate | now intros [= <-]].
Qed.

(** Every completed pass adds one entry to the path. *)
Lemma iterate_path_length : forall n q st st',
    iterate n q st = Some st' ->
    List.length (classification_path st')
      = List.length (classification_path st) + n.
Proof.
  induction n as [|n IH]; intros q st st'; simpl.
  - intros [= <-]. lia.
  - destruct (children (current_node_dict st)); [discriminate|].
    destruct (iteration q st) as [st1|r] eqn:E; [|discriminate].
    intros H. apply IH in H. rewrite H.
    apply iteration_valid in E. destruct E as [_ [s [_ ->]]].
    rewrite length_app. simpl. lia.
Qed.

(** The loop passes through the states that [iterate] lists. *)
Lemma while_loop_iterate : forall n fuel q st st',
    iterate n q st = Some st' ->
    while_loop (n + fuel) q st = while_loop fuel q st'.
Proof.
  induction n as [|n IH]; intros fuel q st st'; simpl.
  - now intros [= <-].
  - destruct (children (current_node_dict st)); [discriminate|].
    destruct (iteration q st) as [st1|r]; [|discriminate].
    apply IH.
Qed.

Lemma while_loop_childless : forall fuel q st,
    children (current_node_dict st) = [] ->
    while_loop (S fuel) q st = Some (final_result O q st).
Proof. intros fuel q st H. simpl. now rewrite H. Qed.

Lemma while_loop_invalid : forall fuel q st,
    children (current_node_dict st) <> [] ->
    Dict.mem (children (current_node_dict st)) (answer q st) = false ->
    while_loop (S fuel) q st = Some (ErrorObject invalid_code_error).
Proof.
  intros fuel q st Hch Hbad. simpl.
  destruct (children (current_node_dict st)) eqn:E; [congruence|].
  rewrite iteration_invalid; [reflexivity|].
  rewrite E. exact Hbad.
Qed.

(** From a state whose node has height at most [h], the loop ends after
    at most [h] passes: at a childless node, or, before its [h]-th
    pass is over, on an answer that is not a child. *)
Lemma loop_ends : forall h q st,
    height (current_node_dict st) <= h ->
    exists n st',
      iterate n q st = Some st' /\
      ((children (current_node_dict st') = [] /\ n <= h) \/
       (children (current_node_dict st') <> [] /\ S n <= h /\
        Dict.mem (children (current_node_dict st')) (answer q st') = false)).
Proof.
  induction h as [|h IH]; intros q st Hh.
  - exists 0, st. split; [reflexivity|]. left. split; [|lia].
    destruct (children (current_node_dict st)) eqn:E; [reflexivity|].
    assert (0 < height (current_node_dict st))
      by (apply height_parent; rewrite E; discriminate).
    lia.
  - destruct (children (current_node_dict st)) eqn:E.
    + exists 0, st. split; [reflexivity|]. left. split; [exact E | lia].
    + destruct (iteration q st) as [st1|r] eqn:Hit.
      * pose proof (iteration_valid _ _ _ Hit) as [Hget _].
        apply height_get in Hget.
        destruct (IH q st1) as [n [st' [Hn Hend]]]; [lia|].
        exists (S n), st'. split.
        { simpl. now rewrite E, Hit. }
        destruct Hend as [[Hc Hle] | [Hc [Hle Hbad]]];
          [left | right]; repeat split; try assumption; lia.
      * exists 0, st. split; [reflexivity|]. right.
        split; [rewrite E; discriminate|]. split; [lia|].
        unfold Dict.mem.
        destruct (Dict.get (children (current_node_dict st)) (answer q st))
          as [c|] eqn:G; [|reflexivity].
        exfalso. revert Hit. unfold answer in G. unfold Classify.iteration.
        destruct (ask (oracle st) (prompt_of O q st)) as [response o'].
        simpl in G. rewrite G. discriminate.
Qed.

(** The last of [S n] passes starts from the state after [n] passes. *)
Lemma iterate_last : forall n q st0 st,
    iterate (S n) q st0 = Some st ->
    exists prev,
      iterate n q st0 = Some prev /\
      children (current_node_dict prev) <> [] /\
      iteration q prev = inl st.
Proof.
  induction n as [|n IH]; intros q st0 st H.
  - exists st0. split; [reflexivity|]. simpl in H.
    destruct (children (current_node_dict st0)) eqn:E; [discriminate|].
    destruct (iteration q st0) as [st1|r] eqn:Hit; [|discriminate].
    injection H as <-. split; [discriminate | reflexivity].
  - change (iterate (S (S n)) q st0) with
      (match children (current_node_dict st0) with
       | [] => None
       | _ :: _ =>
           match iteration q st0 with
           | inl st' => iterate (S n) q st'
           | inr _ => None
           end
       end) in H.
    destruct (children (current_node_dict st0)) eqn:E; [discriminate|].
    destruct (iteration q st0) as [st1|r] eqn:Hit; [|discriminate].
    destruct (IH q st1 st H) as [prev [Hp Hrest]].
    exists prev. split; [|exact Hrest].
    simpl. now rewrite E, Hit.
Qed.

Lemma last_step_snoc : forall path s, last_step (path ++ [s]) = Some s.
Proof.
  intros path s. unfold last_step. now rewrite rev_app_distr.
Qed.

(** Wherever the loop stops after at least one step, the call returns a
    result: its code is the last answer, the key under which the final
    node is stored, and its rates are what [.get] finds on that node,
    whatever the length of the code. *)
Lemma childless_node_is_final : forall n q hs_tree o st,
    iterate (S n) q (start O hs_tree o) = Some st ->
    children (current_node_dict st) = [] ->
    exists prev,
      iterate n q (start O hs_tree o) = Some prev /\
      Dict.get (children (current_node_dict prev)) (answer q prev)
        = Some (current_node_dict st) /\
      forall fuel,
        classify_product (S n + S fuel) hs_tree o q
          = Some (FinalResult q (classification_path st) (answer q prev)
                    (mkTariff (import_rate (current_node_dict st))
                              (export_rate (current_node_dict st))
                              (sst_rate (current_node_dict st)))).
Proof.
  intros n q hs_tree o st Hn Hc.
  destruct (iterate_last n q _ st Hn) as [prev [Hp [_ Hit]]].
  destruct (iteration_valid q prev st Hit) as [Hget [s [Hs Hpath]]].
  exists prev. split; [exact Hp|]. split; [exact Hget|].
  intros fuel. unfold Classify.classify_product.
  rewrite (while_loop_iterate (S n) (S fuel) q _ st Hn).
  rewrite while_loop_childless by exact Hc.
  unfold final_result. now rewrite Hpath, last_step_snoc, Hs.
Qed.

(** A call on an empty tree ends in the statement after the loop. *)
Lemma classify_empty_tree : forall fuel o q,
    classify_product (S fuel) [] o q = Some (Raised IndexError).
Proof. reflexivity. Qed.

End WithOracle.

End ClassifyFacts.

(** * The claims *)

Module Claims.

Import Classify Examples.

(** ** Navigation of the example tree *)

(** C1, as stated, fails: with the oracle that always takes the first
    listed choice, it is not the case that every query ends with
    [final_hs_code = "01012110"] and a path of three steps on the tree
    built from the four example rows. *)
Lemma C1_first_choice_does_not_reach_leaf :
  ~ (forall q, exists fuel path td,
        classify_first fuel example_tree q
          = Some (FinalResult q path "01012110" td)
        /\ List.length path = 3).
Proof.
  intros H.
  destruct (H "Live pure-bred breeding horses") as [fuel [path [td [Hc _]]]].
  destruct fuel as [|[|[|fuel]]]; vm_compute in Hc; discriminate Hc.
Qed.

(** C1, amended: on the tree built from the four example rows, the oracle
    that always takes the first listed choice ends successfully for every
    query, after the two steps ["01"] and ["01"]: the title row of the
    group is stored as a childless heading ["01"], listed first under the
    group ["01"], so [final_hs_code = "01"] and no rate is present. *)
Theorem C1_first_choice_stops_at_first_heading : forall q fuel,
  exists path,
    classify_first (3 + fuel) example_tree q
      = Some (FinalResult q path "01" (mkTariff None None None))
    /\ map step_code path = ["01"; "01"]
    /\ List.length path = 2.
Proof.
  intros q fuel. eexists. split; [vm_compute; reflexivity|].
  split; reflexivity.
Qed.

(** The leaf of the example is four steps below the root. *)
Lemma leaf_is_four_steps_down : forall q fuel,
  exists path,
    classify_scripted (5 + fuel) example_tree
      ["01"; "0101"; "010121"; "01012110"] q
      = Some (FinalResult q path "01012110"
                (mkTariff (Some "0%") (Some "0%") (Some "Free")))
    /\ List.length path = 4.
Proof.
  intros q fuel. eexists. split; [vm_compute; reflexivity | reflexivity].
Qed.

(** ** The description of a group *)

(** C2, at the failing input: after the first heading-title row of group
    ["01"], described ["Live animals"], the group's description is still
    the empty string it was created with; the sentinel is never
    consulted. *)
Theorem C2_first_title_row_leaves_group_undescribed :
  exists g h,
    Dict.get (tree_of title_rows) "01" = Some g
    /\ description g = ""
    /\ Dict.get (children g) "01" = Some h
    /\ description h = "Live animals".
Proof.
  do 2 eexists. repeat split; vm_compute; reflexivity.
Qed.

(** ** Note blocks *)

(** C3, at the failing input: the frame that [build_tree] hands to
    [parse_notes] has its missing headers filled with empty strings, so the
    continuation row is not appended and the note has one line; on the
    frame as read, [parse_notes] keeps both lines. *)
Theorem C3_continuation_row_is_dropped :
  Build.notes_json (Build.build_tree (Build.mkFiles note_rows None None))
    = Some [("01", "Chapter Notes.")]
  /\ Notes.parse_notes note_rows
    = [("01", PyStr.join PyStr.nl
                ["Chapter Notes."; "1. This Chapter covers all live animals."])].
Proof.
  split; vm_compute; reflexivity.
Qed.

(** ** Navigation errors *)

(** C4, at the failing input: on a root without children, such as the
    tree built from a table without rows, the call ends with an uncaught
    [IndexError], for every oracle and every query; no error object is
    returned. *)
Theorem C4_empty_tree_raises :
  tree_of [] = []
  /\ forall O ask o q fuel,
       classify_product O ask (S fuel) [] o q = Some (Raised IndexError).
Proof.
  split; [reflexivity|].
  intros. apply ClassifyFacts.classify_empty_tree.
Qed.

(** C5: if, after [n] validated steps, the loop is at a node with children
    and the oracle answers a code that is not one of them, then that pass
    returns the invalid-choice error object at once, the path then has
    exactly [n] entries, and the call returns that error object. *)
Theorem C5_invalid_choice_aborts : forall O ask hs_tree o q n st,
  iterate O ask n q (start O hs_tree o) = Some st ->
  children (current_node_dict st) <> [] ->
  Dict.mem (children (current_node_dict st)) (answer O ask q st) = false ->
  iteration O ask q st = inr (ErrorObject invalid_code_error)
  /\ List.length (classification_path st) = n
  /\ forall fuel,
       classify_product O ask (n + S fuel) hs_tree o q
         = Some (ErrorObject invalid_code_error).
Proof.
  intros O ask hs_tree o q n st Hn Hch Hbad.
  split; [now apply ClassifyFacts.iteration_invalid|].
  split.
  - apply ClassifyFacts.iterate_path_length in Hn. exact Hn.
  - intros fuel. unfold classify_product.
    rewrite (ClassifyFacts.while_loop_iterate O ask n (S fuel) q _ st Hn).
    now apply ClassifyFacts.while_loop_invalid.
Qed.

(** The same on the example tree, with a script whose third answer,
    ["0102"], is not a subheading of ["0101"]. *)
Lemma C5_invalid_choice_aborts_witness :
  iteration (list string) scripted "q" after_two_steps
    = inr (ErrorObject invalid_code_error)
  /\ List.length (classification_path after_two_steps) = 2
  /\ forall fuel,
       classify_product (list string) scripted (2 + S fuel) example_tree
         bad_script "q"
         = Some (ErrorObject invalid_code_error).
Proof.
  apply (C5_invalid_choice_aborts (list string) scripted example_tree
           bad_script "q" 2 after_two_steps).
  - vm_compute. reflexivity.
  - vm_compute. discriminate.
  - vm_compute. reflexivity.
Defined.

(** C6: for every tree, oracle and query the call terminates.  The loop
    makes [n] validated descents, [n] at most the height of the tree, and
    then either stands on a childless node and leaves the loop, or is
    answered an invalid code on its next pass, which is still within the
    height, and returns the error object; any fuel above the height
    suffices. *)
Theorem C6_classify_terminates : forall O ask hs_tree o q,
  exists n st outcome,
    n <= height (root_of hs_tree)
    /\ iterate O ask n q (start O hs_tree o) = Some st
    /\ List.length (classification_path st) = n
    /\ (forall fuel,
          classify_product O ask (S (height (root_of hs_tree) + fuel)) hs_tree o q
            = Some outcome)
    /\ ((children (current_node_dict st) = []
         /\ outcome = final_result O q st)
        \/ (children (current_node_dict st) <> []
            /\ S n <= height (root_of hs_tree)
            /\ outcome = ErrorObject invalid_code_error)).
Proof.
  intros O ask hs_tree o q.
  destruct (ClassifyFacts.loop_ends O ask (height (root_of hs_tree)) q
              (start O hs_tree o) (le_n _)) as [n [st [Hn Hend]]].
  pose proof (ClassifyFacts.iterate_path_length O ask _ _ _ _ Hn) as Hlen.
  change (List.length (classification_path (start O hs_tree o))) with 0 in Hlen.
  assert (Hfuel : forall fuel,
             n <= height (root_of hs_tree) ->
             classify_product O ask (S (height (root_of hs_tree) + fuel)) hs_tree o q
               = while_loop O ask (S (height (root_of hs_tree) - n + fuel)) q st).
  { intros fuel Hle. unfold classify_product.
    replace (S (height (root_of hs_tree) + fuel))
      with (n + S (height (root_of hs_tree) - n + fuel)) by lia.
    exact (ClassifyFacts.while_loop_iterate O ask n _ q _ st Hn). }
  destruct Hend as [[Hc Hle] | [Hc [Hle Hbad]]].
  - exists n, st, (final_result O q st).
    split; [exact Hle|]. split; [exact Hn|]. split; [exact Hlen|]. split.
    + intros fuel. rewrite Hfuel by exact Hle.
      now apply ClassifyFacts.while_loop_childless.
    + left. split; [exact Hc | reflexivity].
  - exists n, st, (ErrorObject invalid_code_error).
    split; [lia|]. split; [exact Hn|]. split; [exact Hlen|]. split.
    + intros fuel. rewrite Hfuel by lia.
      now apply ClassifyFacts.while_loop_invalid.
    + right. split; [exact Hc|]. split; [exact Hle | reflexivity].
Qed.

(** ** The built tree *)

(** C7, as stated, fails: in the tree built from the four example rows the
    group ["01"] has a child whose code is ["01"] too, so the check that
    every code strictly extends its parent's code returns [false]. *)
Lemma C7_heading_repeats_group_code :
  ~ (forall chapter_notes df,
        Codes.check_children Codes.always_strict 0 ""
          (Build.build chapter_notes df) = true)
  /\ exists g h,
       Dict.get example_tree "01" = Some g
       /\ Dict.get (children g) "01" = Some h.
Proof.
  split.
  - intros H.
    specialize (H [] (fillna example_rows)).
    vm_compute in H. discriminate H.
  - do 2 eexists. split; vm_compute; reflexivity.
Qed.

(** C7, amended: for every notes map and every frame, in the built tree no
    two siblings share a code, and every node's code has its parent's code
    as a prefix: strictly for a group (below the root) and for a leaf item
    (below its subheading), possibly with equality for a heading (a HEADER
    of at most two characters) and for a subheading (an empty SUB). *)
Theorem C7_codes_extend_parent_codes : forall chapter_notes df,
  Codes.check_children Codes.by_level 0 "" (Build.build chapter_notes df) = true.
Proof.
  intros chapter_notes df. apply BuildFacts.build_check.
  - intros header H. now apply CodesFacts.strict_group.
  - intros header. apply PyStrFacts.prefix_substring.
  - intros header sub. apply PyStrFacts.prefix_append.
  - intros header sub item H. simpl.
    rewrite PyStrFacts.append_assoc. now apply CodesFacts.strict_append.
Qed.

(** C8: the tree built from the four example rows has group ["01"], under
    it heading ["0101"], under it subheading ["010121"], under it the leaf
    ["01012110"], described ["Horses"], with rates ["0%"], ["0%"] and
    ["Free"]. *)
Theorem C8_example_rows_build_the_leaf :
  exists g h s l,
    Dict.get example_tree "01" = Some g
    /\ Dict.get (children g) "0101" = Some h
    /\ Dict.get (children h) "010121" = Some s
    /\ Dict.get (children s) "01012110" = Some l
    /\ l = leaf_node "Horses" "0%" "0%" "Free"
    /\ description l = "Horses"
    /\ import_rate l = Some "0%"
    /\ export_rate l = Some "0%"
    /\ sst_rate l = Some "Free".
Proof.
  do 4 eexists. repeat split; vm_compute; reflexivity.
Qed.

(** C9: a build that bypasses the cache check writes the same tree and
    the same notes whatever artifacts are already there, so a second build
    after the first reproduces both; with the cache check the second call
    changes nothing. *)
Theorem C9_build_is_idempotent :
  (forall fs, Build.build_body (Build.build_body fs) = Build.build_body fs)
  /\ (forall table t n t' n',
         Build.build_body (Build.mkFiles table t n)
           = Build.build_body (Build.mkFiles table t' n'))
  /\ (forall fs, Build.build_tree (Build.build_tree fs) = Build.build_tree fs).
Proof.
  split; [reflexivity|]. split; [reflexivity|].
  intros [table [t|] n]; reflexivity.
Qed.

(** An instance: the table whose only row is the title row of subheading
    ["010121"] builds a tree in which that subheading is childless; the
    oracle that answers ["01"], ["0101"], ["010121"] ends there with a
    success result whose [final_hs_code] is the six-character ["010121"]
    and whose three rates are all absent. *)
Lemma childless_subheading_is_a_result : forall q fuel,
  exists path,
    classify_scripted (4 + fuel) (tree_of subheading_rows)
      ["01"; "0101"; "010121"] q
      = Some (FinalResult q path "010121" (mkTariff None None None))
    /\ map step_code path = ["01"; "0101"; "010121"]
    /\ String.length "010121" = 6.
Proof.
  intros q fuel. eexists. split; [vm_compute; reflexivity|].
  split; reflexivity.
Qed.

End Claims.


(** * Further properties *)

(** ** More facts about strings *)

Module PyStrMore.

Lemma prefix_app_r : forall n a b, prefix n a = true -> prefix n (a ++ b) = true.
Proof.
  induction n as [|c n IH]; intros a b H.
  - apply PyStrFacts.prefix_empty.
  - destruct a as [|c' a]; simpl in *; [discriminate|].
    destruct (ascii_dec c c'); [now apply IH | discriminate].
Qed.

Lemma contains_app_r : forall n a b,
    PyStr.contains n a = true -> PyStr.contains n (a ++ b) = true.
Proof.
  intros n a. induction a as [|c a IH]; intros b H.
  - simpl in H. rewrite orb_false_r in H.
    destruct n as [|c n]; [|discriminate H].
    destruct b; reflexivity.
  - cbn [PyStr.contains] in H. apply orb_true_iff in H.
    change ((String c a ++ b)%string) with (String c (a ++ b)).
    cbn [PyStr.contains]. apply orb_true_iff.
    destruct H as [H|H].
    + left. now apply (prefix_app_r n (String c a) b).
    + right. now apply IH.
Qed.

Lemma prefix_contains_tail : forall a b h,
    prefix (a ++ b) h = true -> PyStr.contains b h = true.
Proof.
  induction a as [|c a IH]; intros b h H.
  - change (("" ++ b)%string) with b in H.
    destruct h; cbn [PyStr.contains]; now rewrite H.
  - destruct h as [|c' h]; simpl in H; [discriminate|].
    destruct (ascii_dec c c'); [|discriminate].
    cbn [PyStr.contains]. apply orb_true_iff. right. now apply IH.
Qed.

(** A string that holds [a ++ b] holds [b]. *)
Lemma contains_weaken : forall a b h,
    PyStr.contains (a ++ b) h = true -> PyStr.contains b h = true.
Proof.
  intros a b. induction h as [|c h IH]; intros H.
  - simpl in H. rewrite orb_false_r in H. now apply (prefix_contains_tail a b).
  - cbn [PyStr.contains] in H. apply orb_true_iff in H. destruct H as [H|H].
    + now apply (prefix_contains_tail a b).
    + cbn [PyStr.contains]. apply orb_true_iff. right. now apply IH.
Qed.

Lemma marker_holds_notes : forall s,
    PyStr.contains "Chapter Notes." s = true -> PyStr.contains "Notes." s = true.
Proof.
  intros s H. now apply (contains_weaken "Chapter " "Notes." s).
Qed.

Lemma append_inj_l : forall a b c : string, (a ++ b = a ++ c)%string -> b = c.
Proof.
  induction a as [|x a IH]; intros b c H; simpl in H; [exact H|].
  injection H as H. now apply IH.
Qed.

Lemma length_substring_2 : forall s,
    2 <= String.length s -> String.length (substring 0 2 s) = 2.
Proof.
  intros [|a [|b s]] H; simpl in *; try lia. destruct s; reflexivity.
Qed.

Lemma contains_join_head : forall n d rest,
    PyStr.contains n d = true ->
    PyStr.contains n (PyStr.join PyStr.nl (d :: rest)) = true.
Proof.
  intros n d [|r rest] H; [exact H|].
  change (PyStr.join PyStr.nl (d :: r :: rest))
    with (d ++ (PyStr.nl ++ PyStr.join PyStr.nl (r :: rest)))%string.
  now apply contains_app_r.
Qed.

End PyStrMore.

(** ** More facts about [parse_notes] *)

Module NotesMore.

Import Notes Rows.

Lemma step_unfold : forall st row,
    step st row =
      if starts_block row then
        mkState (flush st)
                (Some (substring 0 2 (PyStr.strip (py_str (HEADER row)))))
                [desc_of row] true
      else if in_note_block st && isna (HEADER row) then
        mkState (chapter_notes st) (current_key st)
                (current_text st ++ [desc_of row]) true
      else if in_note_block st then mkState (flush st) None [] false
      else st.
Proof. reflexivity. Qed.

(** Outside a block, a row that starts none changes nothing. *)
Lemma step_outside : forall st row,
    in_note_block st = false -> starts_block row = false -> step st row = st.
Proof.
  intros st row Hin Hs. rewrite step_unfold, Hs, Hin. reflexivity.
Qed.

Lemma fold_outside : forall rows st,
    in_note_block st = false ->
    forallb (fun r => negb (starts_block r)) rows = true ->
    fold_left step rows st = st.
Proof.
  induction rows as [|r rows IH]; intros st Hin Hall; simpl; [reflexivity|].
  simpl in Hall. apply andb_true_iff in Hall. destruct Hall as [Hr Hall].
  apply negb_true_iff in Hr.
  rewrite step_outside by assumption. now apply IH.
Qed.

(** *** Keys and values *)

Lemma flush_keyed : forall st,
    keyed_state st ->
    Forall (fun kv => String.length (fst kv) = 2
                      /\ PyStr.contains "Chapter Notes." (snd kv) = true)
           (flush st)
    /\ NoDup (keys (flush st)).
Proof.
  intros st [Hall [Hnd Hcur]]. unfold flush.
  destruct (current_key st) as [k|] eqn:Ek; [|now split].
  destruct (PyStr.truthy k); [|now split].
  destruct Hcur as [Hk | [k' [d [rest [Hk [Hlen [Ht Hd]]]]]]]; [discriminate|].
  injection Hk as <-. split.
  - apply DictFacts.Forall_set; [exact Hall|]. split; [exact Hlen|].
    simpl. rewrite Ht. now apply PyStrMore.contains_join_head.
  - now apply DictFacts.NoDup_keys_set.
Qed.

Lemma step_keyed : forall st row, keyed_state st -> keyed_state (step st row).
Proof.
  intros st row Hst. rewrite step_unfold.
  destruct (starts_block row) eqn:Hs.
  - destruct (flush_keyed st Hst) as [Hall Hnd].
    split; [exact Hall|]. split; [exact Hnd|].
    right. unfold starts_block in Hs. apply andb_true_iff in Hs.
    destruct Hs as [Hm Hlen]. apply Nat.leb_le in Hlen.
    do 3 eexists. split; [reflexivity|].
    split; [now apply PyStrMore.length_substring_2|].
    split; [reflexivity | exact Hm].
  - destruct (in_note_block st && isna (HEADER row)).
    + destruct Hst as [Hall [Hnd Hcur]].
      split; [exact Hall|]. split; [exact Hnd|]. simpl.
      destruct Hcur as [Hk | [k [d [rest [Hk [Hlen [Ht Hd]]]]]]]; [now left|].
      right. exists k, d, (rest ++ [desc_of row]).
      rewrite Ht. repeat split; assumption.
    + destruct (in_note_block st); [|exact Hst].
      destruct (flush_keyed st Hst) as [Hall Hnd].
      split; [exact Hall|]. split; [exact Hnd|]. now left.
Qed.

Lemma fold_keyed : forall rows st,
    keyed_state st -> keyed_state (fold_left step rows st).
Proof.
  induction rows as [|r rows IH]; intros st Hst; simpl; [exact Hst|].
  apply IH. now apply step_keyed.
Qed.

Lemma init_keyed : keyed_state init.
Proof.
  split; [constructor|]. split; [constructor | now left].
Qed.

(** *** On a frame without missing cells *)

Lemma flush_noted : forall df st,
    noted_state df st -> Forall (noted df) (flush st).
Proof.
  intros df st [Hall Hcur]. unfold flush.
  destruct (current_key st) as [k|] eqn:Ek; [|exact Hall].
  destruct (PyStr.truthy k); [|exact Hall].
  destruct Hcur as [Hk | [k' [d [Hk [Ht Hd]]]]]; [discriminate|].
  injection Hk as <-.
  apply DictFacts.Forall_set; [exact Hall|]. now rewrite Ht.
Qed.

Lemma step_noted : forall df st row,
    In row df -> noted_state df st -> noted_state df (step st (row_map Str row)).
Proof.
  intros df st row Hin Hst. rewrite step_unfold.
  destruct (starts_block (row_map Str row)) eqn:Hs.
  - split; [now apply flush_noted|].
    right. do 2 eexists. split; [reflexivity|]. split; [reflexivity|].
    exists row. repeat split; assumption.
  - change (isna (HEADER (row_map Str row))) with false.
    rewrite andb_false_r.
    destruct (in_note_block st); [|exact Hst].
    split; [now apply flush_noted | now left].
Qed.

Lemma fold_noted : forall df rows st,
    incl rows df -> noted_state df st ->
    noted_state df (fold_left step (as_cells rows) st).
Proof.
  intros df. induction rows as [|row rows IH]; intros st Hincl Hst; simpl; [exact Hst|].
  apply IH.
  - intros r Hr. apply Hincl. now right.
  - apply step_noted; [apply Hincl; now left | exact Hst].
Qed.

(** *** Rows that start no block, on a frame without missing cells *)

Lemma flush_closed : forall d, flush (mkState d None [] false) = d.
Proof. reflexivity. Qed.

(** Such a row leaves what a flush would store as it is. *)
Lemma step_filled_other : forall st row,
    starts_block (row_map Str row) = false ->
    flush (step st (row_map Str row)) = flush st.
Proof.
  intros st row Hs. rewrite step_unfold, Hs.
  change (isna (HEADER (row_map Str row))) with false.
  rewrite andb_false_r.
  destruct (in_note_block st); [apply flush_closed | reflexivity].
Qed.

(** A row that starts a block reads the state only through what a flush
    would store. *)
Lemma step_start_flush : forall st st' row,
    starts_block row = true -> flush st = flush st' -> step st row = step st' row.
Proof.
  intros st st' row Hs Hf. rewrite !step_unfold, Hs, Hf. reflexivity.
Qed.

(** On a frame without missing cells the notes map depends on the rows
    that start a block alone: the other rows may be dropped. *)
Lemma filled_notes_ignore : forall (keep : Row string -> bool),
    (forall r, starts_block (row_map Str r) = true -> keep r = true) ->
    forall rows st st',
      flush st = flush st' ->
      flush (fold_left step (as_cells rows) st)
        = flush (fold_left step (as_cells (filter keep rows)) st').
Proof.
  intros keep Hkeep.
  induction rows as [|r rows IH]; intros st st' Hf; simpl; [exact Hf|].
  destruct (starts_block (row_map Str r)) eqn:Hs.
  - rewrite (Hkeep r Hs). simpl. apply IH.
    now rewrite (step_start_flush st st' _ Hs Hf).
  - destruct (keep r); simpl; apply IH.
    + now rewrite !step_filled_other.
    + now rewrite step_filled_other.
Qed.

End NotesMore.

(** ** Facts about shapes *)

Module ShapeFacts.

Import Shape.

Lemma shaped_node_children : forall lvl n,
    shaped_node lvl n = shaped lvl (children n).
Proof.
  intros lvl [d no i e s ch]. unfold shaped. simpl.
  induction ch as [|[k c] ch IH]; simpl; [reflexivity|].
  now rewrite IH.
Qed.

Lemma shaped_iff : forall lvl d, shaped lvl d = true <-> Forall (good lvl) d.
Proof.
  intros lvl d. unfold shaped, good.
  rewrite forallb_forall, Forall_forall.
  split; intros H kv Hin; specialize (H kv Hin).
  - rewrite andb_true_iff, shaped_node_children in H. exact H.
  - rewrite andb_true_iff, shaped_node_children. exact H.
Qed.

Lemma shaped_set : forall lvl d k v,
    shaped lvl d = true ->
    node_shape (S lvl) v = true ->
    shaped (S lvl) (children v) = true ->
    shaped lvl (Dict.set d k v) = true.
Proof.
  intros lvl d k v Hd Hv Hc. apply shaped_iff. apply shaped_iff in Hd.
  apply DictFacts.Forall_set; [exact Hd | split; assumption].
Qed.

Lemma shaped_update : forall lvl d k f,
    shaped lvl d = true ->
    (forall v, node_shape (S lvl) v = true ->
               shaped (S lvl) (children v) = true ->
               node_shape (S lvl) (f v) = true
               /\ shaped (S lvl) (children (f v)) = true) ->
    shaped lvl (Dict.update d k f) = true.
Proof.
  intros lvl d k f Hd Hf. apply shaped_iff. apply shaped_iff in Hd.
  apply DictFacts.Forall_update; [exact Hd|].
  intros v [Hv Hc]. now apply Hf.
Qed.

(** Above the leaf items, the shape of a node does not depend on its
    children nor on its description. *)
Lemma node_shape_on_children : forall lvl F v,
    lvl < 3 -> node_shape (S lvl) (on_children F v) = node_shape (S lvl) v.
Proof.
  intros [|[|[|lvl]]] F v H; try lia; reflexivity.
Qed.

Lemma node_shape_set_description : forall lvl d v,
    lvl < 3 -> node_shape (S lvl) (set_description d v) = node_shape (S lvl) v.
Proof.
  intros [|[|[|lvl]]] d v H; try lia; reflexivity.
Qed.

Lemma shaped_update_children : forall lvl d k F,
    lvl < 3 ->
    shaped lvl d = true ->
    (forall ch, shaped (S lvl) ch = true -> shaped (S lvl) (F ch) = true) ->
    shaped lvl (Dict.update d k (on_children F)) = true.
Proof.
  intros lvl d k F Hl Hd HF. apply shaped_update; [exact Hd|].
  intros v Hv Hc. split.
  - now rewrite node_shape_on_children.
  - now apply HF.
Qed.

Lemma height_le : forall n m,
    (forall k c, In (k, c) (children n) -> S (height c) <= m) -> height n <= m.
Proof.
  intros [d no i e s ch] m. cbn -[Nat.max].
  induction ch as [|[k c] ch IH]; intros H; cbn -[Nat.max]; [lia|].
  apply Nat.max_lub.
  - apply (H k c). now left.
  - apply IH. intros k' c' Hin. apply (H k' c'). now right.
Qed.

(** A node at depth [lvl] whose descendants have the shape of their depth
    is at most [4 - lvl] high. *)
Lemma shaped_height : forall m lvl n,
    lvl + m = 4 -> shaped lvl (children n) = true -> height n <= m.
Proof.
  induction m as [|m IH]; intros lvl n Hl Hs.
  - assert (lvl = 4) by lia. subst lvl.
    destruct (children n) as [|[k c] ch] eqn:E.
    + rewrite ClassifyFacts.height_childless by exact E. lia.
    + simpl in Hs. discriminate Hs.
  - apply height_le. intros k c Hin.
    apply shaped_iff in Hs. rewrite Forall_forall in Hs.
    destruct (Hs _ Hin) as [_ Hc]. simpl in Hc.
    apply le_n_S. apply (IH (S lvl)); [lia | exact Hc].
Qed.

(** The node found along a path of keys has the shape of its depth. *)
Lemma find_shape : forall path lvl d n,
    shaped lvl d = true ->
    Paths.find d path = Some n ->
    node_shape (lvl + List.length path) n = true.
Proof.
  induction path as [|k rest IH]; intros lvl d n Hs Hf; simpl in Hf; [discriminate|].
  destruct (Dict.get d k) as [c|] eqn:G; [|discriminate].
  apply DictFacts.get_In in G.
  apply shaped_iff in Hs. rewrite Forall_forall in Hs.
  destruct (Hs _ G) as [Hc Hch]. simpl in Hc, Hch.
  destruct rest as [|k' rest'].
  - injection Hf as <-. simpl. now rewrite Nat.add_1_r.
  - replace (lvl + List.length (k :: k' :: rest'))
      with (S lvl + List.length (k' :: rest')) by (simpl; lia).
    now apply (IH (S lvl) (children c)).
Qed.

(** The node reached along the steps of a path has the shape of its
    depth. *)
Lemma trace_shape : forall path lvl n0 n,
    shaped lvl (children n0) = true ->
    path <> [] ->
    Paths.trace n0 path = Some n ->
    node_shape (lvl + List.length path) n = true.
Proof.
  induction path as [|s rest IH]; intros lvl n0 n Hs Hne Ht; [congruence|].
  simpl in Ht.
  destruct (Dict.get (children n0) (Classify.step_code s)) as [c|] eqn:G; [|discriminate].
  destruct (description c =? Classify.step_description s); [|discriminate].
  apply DictFacts.get_In in G.
  apply shaped_iff in Hs. rewrite Forall_forall in Hs.
  destruct (Hs _ G) as [Hc Hch]. simpl in Hc, Hch.
  destruct rest as [|s' rest'].
  - simpl in Ht. injection Ht as <-. simpl. now rewrite Nat.add_1_r.
  - replace (lvl + List.length (s :: s' :: rest'))
      with (S lvl + List.length (s' :: rest')) by (simpl; lia).
    apply (IH (S lvl) c); [exact Hch | discriminate | exact Ht].
Qed.

End ShapeFacts.

(** ** More facts about the builder *)

Module BuildMore.

Import Build Rows Shape ShapeFacts.

Lemma process_row_unfold : forall chapter_notes hs_tree row,
    skipped row = false ->
    process_row chapter_notes hs_tree row =
      let t1 :=
        set_if_absent (substring 0 2 (HEADER row))
          (inner_node "" (Dict.get chapter_notes (substring 0 2 (HEADER row))))
          hs_tree in
      if negb (PyStr.truthy (SUB row)) && negb (PyStr.truthy (ITEM row)) then
        Dict.update
          (Dict.update t1 (substring 0 2 (HEADER row))
             (on_children
                (create_or_describe (HEADER row) (PyStr.strip (DESCRIPTION row)))))
          (substring 0 2 (HEADER row))
          (fun g =>
             if (String.length (PyStr.strip (DESCRIPTION row))
                 <? String.length (get_description g sentinel))%nat
             then set_description (PyStr.strip (DESCRIPTION row)) g else g)
      else
        let t2 :=
          Dict.update t1 (substring 0 2 (HEADER row))
            (on_children (set_if_absent (HEADER row) (inner_node "" None))) in
        if negb (PyStr.truthy (ITEM row)) then
          Dict.update t2 (substring 0 2 (HEADER row))
            (on_children (fun hs =>
               Dict.update hs (HEADER row)
                 (on_children
                    (create_or_describe (HEADER row ++ SUB row)
                       (PyStr.strip (DESCRIPTION row))))))
        else
          Dict.update
            (Dict.update t2 (substring 0 2 (HEADER row))
               (on_children (fun hs =>
                  Dict.update hs (HEADER row)
                    (on_children
                       (set_if_absent (HEADER row ++ SUB row)
                          (inner_node "" None))))))
            (substring 0 2 (HEADER row))
            (on_children (fun hs =>
               Dict.update hs (HEADER row)
                 (on_children (fun ss =>
                    Dict.update ss (HEADER row ++ SUB row)
                      (on_children (fun ls =>
                         Dict.set ls (HEADER row ++ SUB row ++ ITEM row)
                           (leaf_of row))))))).
Proof.
  intros chapter_notes hs_tree row H. unfold process_row.
  unfold skipped in H. rewrite H. reflexivity.
Qed.

Lemma process_row_skipped : forall chapter_notes hs_tree row,
    skipped row = true -> process_row chapter_notes hs_tree row = hs_tree.
Proof.
  intros chapter_notes hs_tree row H. unfold process_row.
  unfold skipped in H. now rewrite H.
Qed.

(** *** Shapes *)

Lemma shaped_set_if_absent : forall lvl k v d,
    shaped lvl d = true ->
    node_shape (S lvl) v = true ->
    shaped (S lvl) (children v) = true ->
    shaped lvl (set_if_absent k v d) = true.
Proof.
  intros lvl k v d Hd Hv Hc. unfold set_if_absent.
  destruct (Dict.mem d k); [exact Hd | now apply shaped_set].
Qed.

Lemma shaped_create_or_describe : forall lvl k desc d,
    lvl = 1 \/ lvl = 2 ->
    shaped lvl d = true ->
    shaped lvl (create_or_describe k desc d) = true.
Proof.
  intros lvl k desc d Hl Hd. unfold create_or_describe.
  destruct (Dict.mem d k).
  - apply shaped_update; [exact Hd|]. intros v Hv Hc. split; [|exact Hc].
    rewrite node_shape_set_description; [exact Hv | lia].
  - apply shaped_set; [exact Hd | | reflexivity].
    destruct Hl as [-> | ->]; reflexivity.
Qed.

Lemma process_row_shaped : forall chapter_notes hs_tree row,
    shaped 0 hs_tree = true ->
    shaped 0 (process_row chapter_notes hs_tree row) = true.
Proof.
  intros chapter_notes hs_tree row Ht.
  destruct (skipped row) eqn:Hsk; [now rewrite process_row_skipped|].
  rewrite process_row_unfold by exact Hsk. cbv zeta.
  assert (H1 : shaped 0
                 (set_if_absent (substring 0 2 (HEADER row))
                    (inner_node "" (Dict.get chapter_notes (substring 0 2 (HEADER row))))
                    hs_tree) = true)
    by (apply shaped_set_if_absent; [exact Ht | reflexivity | reflexivity]).
  destruct (negb (PyStr.truthy (SUB row)) && negb (PyStr.truthy (ITEM row))).
  - apply shaped_update.
    + apply shaped_update_children; [lia | exact H1|].
      intros ch Hch. apply shaped_create_or_describe; [now left | exact Hch].
    + intros g Hg Hc.
      destruct (String.length _ <? String.length _)%nat; split; assumption.
  - destruct (negb (PyStr.truthy (ITEM row)));
      repeat first
        [ exact H1
        | assumption
        | reflexivity
        | lia
        | apply shaped_create_or_describe; [now right|]
        | apply shaped_set_if_absent
        | apply shaped_set
        | apply shaped_update_children; [lia| |intros ? ?] ].
Qed.

Lemma fold_shaped : forall chapter_notes df t,
    shaped 0 t = true ->
    shaped 0 (fold_left (process_row chapter_notes) df t) = true.
Proof.
  intros chapter_notes. induction df as [|row df IH]; intros t Ht; simpl; [exact Ht|].
  apply IH. now apply process_row_shaped.
Qed.

Lemma build_shaped : forall chapter_notes df,
    shaped 0 (build chapter_notes df) = true.
Proof.
  intros chapter_notes df. now apply fold_shaped.
Qed.

(** *** Notes of the groups *)

Lemma process_row_notes_from : forall chapter_notes hs_tree row,
    Forall (notes_from chapter_notes) hs_tree ->
    Forall (notes_from chapter_notes) (process_row chapter_notes hs_tree row).
Proof.
  intros chapter_notes hs_tree row Ht.
  destruct (skipped row) eqn:Hsk; [now rewrite process_row_skipped|].
  rewrite process_row_unfold by exact Hsk. cbv zeta.
  assert (H1 : Forall (notes_from chapter_notes)
                 (set_if_absent (substring 0 2 (HEADER row))
                    (inner_node "" (Dict.get chapter_notes (substring 0 2 (HEADER row))))
                    hs_tree)).
  { unfold set_if_absent. destruct (Dict.mem hs_tree _); [exact Ht|].
    apply DictFacts.Forall_set; [exact Ht | reflexivity]. }
  assert (Hkeep : forall f t k, Forall (notes_from chapter_notes) t ->
                    Forall (notes_from chapter_notes) (Dict.update t k (on_children f))).
  { intros f t k H. apply DictFacts.Forall_update; [exact H|].
    intros v Hv. exact Hv. }
  destruct (negb (PyStr.truthy (SUB row)) && negb (PyStr.truthy (ITEM row))).
  - apply DictFacts.Forall_update; [now apply Hkeep|].
    intros g Hg. destruct (String.length _ <? String.length _)%nat; exact Hg.
  - destruct (negb (PyStr.truthy (ITEM row))); repeat apply Hkeep; exact H1.
Qed.

(** *** Order of the groups *)

Lemma keys_set_if_absent : forall k v (d : Tree),
    exists l, keys (set_if_absent k v d) = keys d ++ l.
Proof.
  intros k v d. unfold set_if_absent.
  destruct (Dict.mem d k) eqn:E.
  - exists []. now rewrite app_nil_r.
  - exists [k]. now rewrite DictFacts.keys_set, E.
Qed.

Lemma keys_process_row : forall chapter_notes hs_tree row,
    exists l, keys (process_row chapter_notes hs_tree row) = keys hs_tree ++ l.
Proof.
  intros chapter_notes hs_tree row.
  destruct (skipped row) eqn:Hsk.
  - rewrite process_row_skipped by exact Hsk. exists []. now rewrite app_nil_r.
  - rewrite process_row_unfold by exact Hsk. cbv zeta.
    destruct (keys_set_if_absent (substring 0 2 (HEADER row))
                (inner_node "" (Dict.get chapter_notes (substring 0 2 (HEADER row))))
                hs_tree) as [l Hl].
    exists l.
    destruct (negb (PyStr.truthy (SUB row)) && negb (PyStr.truthy (ITEM row)));
      [|destruct (negb (PyStr.truthy (ITEM row)))];
      repeat rewrite DictFacts.keys_update; exact Hl.
Qed.

End BuildMore.

(** ** Paths through a tree under construction *)

Module PathFacts.

Import Build Rows Paths.

Lemma find_cons : forall d k p,
    find d (k :: p) =
      match Dict.get d k with
      | None => None
      | Some n => match p with [] => Some n | _ :: _ => find (children n) p end
      end.
Proof. reflexivity. Qed.

Lemma keeps_comp : forall F1 F2 p,
    keeps F1 p -> keeps F2 p -> keeps (fun d => F2 (F1 d)) p.
Proof.
  intros F1 F2 p H1 H2 d n H. apply H2. now apply H1.
Qed.

Lemma keeps_update_other : forall k k' G p,
    k <> k' -> keeps (fun d => Dict.update d k G) (k' :: p).
Proof.
  intros k k' G p Hne d n H. rewrite find_cons in *.
  now rewrite DictFacts.get_update_other.
Qed.

(** A mutation of one node that keeps its children keeps every path
    through it. *)
Lemma keeps_update_same_children : forall k k' G k'' p,
    (forall x, children (G x) = children x) ->
    keeps (fun d => Dict.update d k G) (k' :: k'' :: p).
Proof.
  intros k k' G k'' p HG d n H.
  destruct (String.eqb_spec k k') as [->|Hne]; [|now apply keeps_update_other].
  rewrite find_cons in *. rewrite DictFacts.get_update_same.
  destruct (Dict.get d k') as [x|]; [|discriminate]. simpl.
  now rewrite HG.
Qed.

(** A mutation of the children of one node keeps the paths that the
    mutation of the children keeps. *)
Lemma keeps_update_children : forall k k' F k'' p,
    keeps F (k'' :: p) ->
    keeps (fun d => Dict.update d k (on_children F)) (k' :: k'' :: p).
Proof.
  intros k k' F k'' p HF d n H.
  destruct (String.eqb_spec k k') as [->|Hne]; [|now apply keeps_update_other].
  rewrite find_cons in *. rewrite DictFacts.get_update_same.
  destruct (Dict.get d k') as [x|]; [|discriminate]. simpl.
  now apply HF.
Qed.

Lemma keeps_set_other : forall k k' v p,
    k <> k' -> keeps (fun d => Dict.set d k v) (k' :: p).
Proof.
  intros k k' v p Hne d n H. rewrite find_cons in *.
  now rewrite DictFacts.get_set_other.
Qed.

Lemma keeps_set_if_absent : forall k v p, keeps (set_if_absent k v) p.
Proof.
  intros k v [|k' p] d n H; [discriminate H|].
  unfold set_if_absent. destruct (Dict.mem d k) eqn:E; [exact H|].
  apply keeps_set_other; [|exact H].
  intros ->. rewrite find_cons in H. unfold Dict.mem in E.
  destruct (Dict.get d k'); discriminate.
Qed.

Lemma keeps_create_or_describe : forall k desc k' k'' p,
    keeps (create_or_describe k desc) (k' :: k'' :: p).
Proof.
  intros k desc k' k'' p d n H. unfold create_or_describe.
  destruct (Dict.mem d k) eqn:E.
  - now apply (keeps_update_same_children k k' (set_description desc)).
  - apply keeps_set_other; [|exact H].
    intros ->. rewrite find_cons in H. unfold Dict.mem in E.
    destruct (Dict.get d k'); discriminate.
Qed.

(** The loop body keeps every node four keys deep, unless the row is a
    leaf row filed under the very same four keys. *)
Lemma process_row_keeps : forall chapter_notes row c h s f,
    ~ (is_leaf_row row = true /\ slot row = [c; h; s; f]) ->
    keeps (fun t => process_row chapter_notes t row) [c; h; s; f].
Proof.
  intros chapter_notes row c h s f Hno t n H.
  destruct (skipped row) eqn:Hsk; [now rewrite BuildMore.process_row_skipped|].
  rewrite BuildMore.process_row_unfold by exact Hsk. cbv zeta.
  pose proof (keeps_set_if_absent (substring 0 2 (HEADER row))
                (inner_node "" (Dict.get chapter_notes (substring 0 2 (HEADER row))))
                _ t n H) as H1.
  destruct (String.eqb_spec (substring 0 2 (HEADER row)) c) as [Ec|Ec].
  2: { destruct (negb (PyStr.truthy (SUB row)) && negb (PyStr.truthy (ITEM row)));
         [|destruct (negb (PyStr.truthy (ITEM row)))];
         repeat (apply keeps_update_other; [exact Ec|]); exact H1. }
  destruct (PyStr.truthy (ITEM row)) eqn:Hi.
  2: destruct (PyStr.truthy (SUB row)) eqn:Hs.
  - (* leaf row *)
    rewrite andb_false_r. cbn [negb].
    apply (keeps_update_children _ c _ h [s; f]).
    2: { apply (keeps_update_children _ c _ h [s; f]).
         2: { apply (keeps_update_children _ c _ h [s; f]); [|exact H1].
              apply keeps_set_if_absent. }
         apply (keeps_update_children _ h _ s [f]).
         apply keeps_set_if_absent. }
    destruct (String.eqb_spec (HEADER row) h) as [Eh|Eh];
      [|now apply keeps_update_other].
    apply (keeps_update_children _ h _ s [f]).
    destruct (String.eqb_spec (HEADER row ++ SUB row) s) as [Es|Es];
      [|now apply keeps_update_other].
    apply (keeps_update_children _ s _ f []).
    apply keeps_set_other. intros Ef.
    apply Hno. split.
    + unfold is_leaf_row. now rewrite Hsk, Hi.
    + unfold slot. congruence.
  - (* subheading title row *)
    cbn [negb andb].
    apply (keeps_update_children _ c _ h [s; f]).
    2: { apply (keeps_update_children _ c _ h [s; f]); [|exact H1].
         apply keeps_set_if_absent. }
    apply (keeps_update_children _ h _ s [f]).
    apply keeps_create_or_describe.
  - (* heading title row *)
    cbn [negb andb].
    apply (keeps_update_same_children _ c _ h [s; f]).
    { intros x. destruct (String.length _ <? String.length _)%nat; reflexivity. }
    apply (keeps_update_children _ c _ h [s; f]); [|exact H1].
    apply keeps_create_or_describe.
Qed.

(** *** Where the loop body files a leaf row *)

Lemma find_group_made : forall k v t,
    exists g, find (set_if_absent k v t) [k] = Some g.
Proof.
  intros k v t. rewrite find_cons.
  pose proof (BuildFacts.mem_set_if_absent k v t) as H. unfold Dict.mem in H.
  destruct (Dict.get (set_if_absent k v t) k) as [g|]; [now exists g | discriminate].
Qed.

Lemma get_set_if_absent : forall k v (d : Tree),
    exists x, Dict.get (set_if_absent k v d) k = Some x.
Proof.
  intros k v d.
  pose proof (BuildFacts.mem_set_if_absent k v d) as H. unfold Dict.mem in H.
  destruct (Dict.get (set_if_absent k v d) k) as [x|]; [now exists x | discriminate].
Qed.

(** After a leaf row, its leaf is found under the four keys of the row. *)
Lemma process_row_files_leaf : forall chapter_notes t row,
    is_leaf_row row = true ->
    find (process_row chapter_notes t row) (slot row) = Some (leaf_of row).
Proof.
  intros chapter_notes t row Hleaf.
  unfold is_leaf_row in Hleaf. apply andb_true_iff in Hleaf.
  destruct Hleaf as [Hsk Hi]. apply negb_true_iff in Hsk.
  rewrite BuildMore.process_row_unfold by exact Hsk. cbv zeta.
  rewrite Hi, andb_false_r. cbn [negb]. unfold slot.
  destruct (get_set_if_absent (substring 0 2 (HEADER row))
              (inner_node "" (Dict.get chapter_notes (substring 0 2 (HEADER row))))
              t) as [g Hg].
  rewrite find_cons, !DictFacts.get_update_same, Hg.
  cbn [option_map children on_children].
  destruct (get_set_if_absent (HEADER row) (inner_node "" None) (children g))
    as [y Hy].
  rewrite find_cons, !DictFacts.get_update_same, Hy.
  cbn [option_map children on_children].
  destruct (get_set_if_absent (HEADER row ++ SUB row) (inner_node "" None)
              (children y)) as [z Hz].
  rewrite find_cons, !DictFacts.get_update_same, Hz.
  cbn [option_map children on_children].
  rewrite find_cons, DictFacts.get_set_same. reflexivity.
Qed.

End PathFacts.

(** ** More facts about the navigation loop *)

Module ClassifyMore.

Import Classify Paths.

Lemma choices_are_keys : forall ch, map choice_code (choices_of ch) = keys ch.
Proof.
  intros ch. unfold choices_of, keys. rewrite map_map. reflexivity.
Qed.

Lemma In_keys_get : forall (d : Tree) k,
    In k (keys d) -> exists v, Dict.get d k = Some v.
Proof.
  induction d as [|[k' v'] d IH]; intros k H; simpl in *; [contradiction|].
  destruct (k' =? k) eqn:E; [now exists v'|].
  destruct H as [H|H]; [apply String.eqb_neq in E; contradiction | now apply IH].
Qed.

Lemma last_step_none : forall path, last_step path = None -> path = [].
Proof.
  intros path H. unfold last_step in H.
  destruct (List.rev path) eqn:E; [|discriminate].
  apply (f_equal (@List.rev Step)) in E. now rewrite rev_involutive in E.
Qed.

Lemma trace_app : forall p1 p2 n c,
    trace n p1 = Some c -> trace n (p1 ++ p2) = trace c p2.
Proof.
  induction p1 as [|s p1 IH]; intros p2 n c H; simpl in *.
  - now injection H as ->.
  - destruct (Dict.get (children n) (step_code s)) as [x|]; [|discriminate].
    destruct (description x =? step_description s); [|discriminate].
    now apply IH.
Qed.

Section WithOracle.

Variable O : Type.
Variable ask : O -> Prompt -> Response * O.

#[local] Abbreviation loop_state := (loop_state O).
#[local] Abbreviation iteration := (iteration O ask).
#[local] Abbreviation iterate := (iterate O ask).
#[local] Abbreviation while_loop := (while_loop O ask).
#[local] Abbreviation classify_product := (classify_product O ask).
#[local] Abbreviation answer := (answer O ask).

(** What a validated pass leaves behind. *)
Lemma iteration_step : forall q st st',
    iteration q st = inl st' ->
    exists s,
      classification_path st' = classification_path st ++ [s]
      /\ step_code s = answer q st
      /\ step_description s = description (current_node_dict st')
      /\ Dict.get (children (current_node_dict st)) (step_code s)
         = Some (current_node_dict st')
      /\ current_path_str st' = breadcrumb (classification_path st').
Proof.
  intros q st st'. unfold Classify.answer, Classify.iteration.
  destruct (ask (oracle st) (prompt_of O q st)) as [response o']. simpl.
  destruct (Dict.get _ _) as [c|] eqn:G; [|discriminate].
  intros [= <-]. simpl. eexists. split; [reflexivity|]. simpl.
  repeat split; try reflexivity. exact G.
Qed.

(** The steps added by [n] passes lead from the node where they start to
    the node where they end. *)
Lemma iterate_trace : forall n q st0 st,
    iterate n q st0 = Some st ->
    exists added,
      classification_path st = classification_path st0 ++ added
      /\ List.length added = n
      /\ trace (current_node_dict st0) added = Some (current_node_dict st).
Proof.
  induction n as [|n IH]; intros q st0 st H.
  - simpl in H. injection H as <-. exists []. rewrite app_nil_r. now repeat split.
  - simpl in H.
    destruct (children (current_node_dict st0)) eqn:E; [discriminate|].
    destruct (Classify.iteration O ask q st0) as [st1|r] eqn:Hit; [|discriminate].
    destruct (iteration_step q st0 st1 Hit) as [s [Hp [_ [Hd [Hg _]]]]].
    destruct (IH q st1 st H) as [added [Hp' [Hl Ht]]].
    exists (s :: added). split; [|split].
    + rewrite Hp', Hp, <- app_assoc. reflexivity.
    + simpl. now rewrite Hl.
    + simpl. rewrite Hg, Hd, String.eqb_refl. exact Ht.
Qed.

(** Every pass goes at least one level down. *)
Lemma iterate_height : forall n q st0 st,
    iterate n q st0 = Some st ->
    n + height (current_node_dict st) <= height (current_node_dict st0).
Proof.
  induction n as [|n IH]; intros q st0 st H.
  - simpl in H. injection H as <-. lia.
  - simpl in H.
    destruct (children (current_node_dict st0)) eqn:E; [discriminate|].
    destruct (Classify.iteration O ask q st0) as [st1|r] eqn:Hit; [|discriminate].
    destruct (iteration_step q st0 st1 Hit) as [s [_ [_ [_ [Hg _]]]]].
    apply ClassifyFacts.height_get in Hg.
    specialize (IH q st1 st H). lia.
Qed.

(** The breadcrumb after at least one pass. *)
Lemma iterate_breadcrumb : forall n q st0 st,
    iterate (S n) q st0 = Some st ->
    current_path_str st = breadcrumb (classification_path st).
Proof.
  intros n q st0 st H.
  destruct (ClassifyFacts.iterate_last O ask n q st0 st H) as [prev [_ [_ Hit]]].
  now destruct (iteration_step q prev st Hit) as [s [_ [_ [_ [_ Hb]]]]].
Qed.

(** How the loop can end. *)
Lemma while_loop_outcome : forall fuel q st0 r,
    while_loop fuel q st0 = Some r ->
    exists n st,
      iterate n q st0 = Some st
      /\ ((children (current_node_dict st) = [] /\ r = final_result O q st)
          \/ (children (current_node_dict st) <> []
              /\ Dict.mem (children (current_node_dict st)) (answer q st) = false
              /\ r = ErrorObject invalid_code_error)).
Proof.
  induction fuel as [|fuel IH]; intros q st0 r H; [discriminate H|].
  simpl in H.
  destruct (children (current_node_dict st0)) eqn:E.
  - injection H as <-. exists 0, st0. split; [reflexivity|]. left. now split.
  - destruct (Classify.iteration O ask q st0) as [st1|r'] eqn:Hit.
    + destruct (IH q st1 r H) as [n [st [Hn Hend]]].
      exists (S n), st. split; [|exact Hend].
      simpl. now rewrite E, Hit.
    + injection H as <-. exists 0, st0. split; [reflexivity|]. right.
      split; [rewrite E; discriminate|].
      pose proof (ClassifyFacts.iteration_abort O ask q st0 r' Hit) as ->.
      split; [|reflexivity].
      unfold Dict.mem.
      destruct (Dict.get (children (current_node_dict st0)) (answer q st0))
        as [c|] eqn:G; [|reflexivity].
      exfalso. revert Hit. unfold Classify.answer in G. unfold Classify.iteration.
      destruct (ask (oracle st0) (prompt_of O q st0)) as [response o'].
      simpl in G. rewrite G. discriminate.
Qed.

(** The path and the breadcrumb after [n] passes from the start. *)
Lemma descent_invariant : forall hs_tree o q n st,
    iterate n q (start O hs_tree o) = Some st ->
    List.length (classification_path st) = n
    /\ trace (root_of hs_tree) (classification_path st)
       = Some (current_node_dict st)
    /\ current_path_str st
       = match n with
         | 0 => "Start"
         | S _ => breadcrumb (classification_path st)
         end.
Proof.
  intros hs_tree o q n st H.
  destruct (iterate_trace n q _ st H) as [added [Hp [Hl Ht]]].
  cbn [start classification_path current_node_dict] in Hp, Ht.
  simpl app in Hp. rewrite Hp.
  split; [exact Hl|]. split; [exact Ht|].
  destruct n as [|n].
  - simpl in H. now injection H as <-.
  - rewrite <- Hp. exact (iterate_breadcrumb n q _ st H).
Qed.

(** What a returned result says about the call. *)
Lemma result_descent : forall fuel hs_tree o q q' path code td,
    classify_product fuel hs_tree o q = Some (FinalResult q' path code td) ->
    q' = q
    /\ 1 <= List.length path <= height (root_of hs_tree)
    /\ exists node s,
         trace (root_of hs_tree) path = Some node
         /\ children node = []
         /\ last_step path = Some s
         /\ code = step_code s
         /\ td = mkTariff (import_rate node) (export_rate node) (sst_rate node).
Proof.
  intros fuel hs_tree o q q' path code td H.
  unfold Classify.classify_product in H.
  destruct (while_loop_outcome fuel q _ _ H)
    as [n [st [Hn [[Hc Hr] | [_ [_ Hr]]]]]]; [|discriminate Hr].
  unfold final_result in Hr.
  destruct (last_step (classification_path st)) as [s|] eqn:Hs; [|discriminate Hr].
  injection Hr as -> -> -> ->.
  destruct (descent_invariant hs_tree o q n st Hn) as [Hl [Ht _]].
  pose proof (iterate_height n q _ st Hn) as Hh.
  cbn [start current_node_dict] in Hh.
  split; [reflexivity|]. split.
  - rewrite Hl. split; [|lia].
    destruct n as [|n]; [|lia].
    destruct (classification_path st); [discriminate Hs | discriminate Hl].
  - exists (current_node_dict st), s. repeat split; assumption.
Qed.

End WithOracle.

End ClassifyMore.

(** * Further results *)

Module Extras.

Import Classify Examples MoreExamples Rows Paths Shape.

(** ** The notes map *)

(** X1: whatever the frame, the keys of the notes map are distinct and
    have exactly two characters. *)
Theorem notes_keys_distinct_two_chars : forall df,
  NoDup (keys (Notes.parse_notes df))
  /\ Forall (fun k => String.length k = 2) (keys (Notes.parse_notes df)).
Proof.
  intros df. unfold Notes.parse_notes.
  destruct (NotesMore.flush_keyed _
              (NotesMore.fold_keyed df Notes.init NotesMore.init_keyed))
    as [Hall Hnd].
  split; [exact Hnd|].
  unfold keys. rewrite Forall_map.
  eapply Forall_impl; [|exact Hall]. intros kv [Hk _]. exact Hk.
Qed.

(** X2: whatever the frame, every value of the notes map holds the marker
    ["Chapter Notes."]. *)
Theorem notes_values_hold_marker : forall df,
  Forall (fun kv => PyStr.contains "Chapter Notes." (snd kv) = true)
         (Notes.parse_notes df).
Proof.
  intros df. unfold Notes.parse_notes.
  destruct (NotesMore.flush_keyed _
              (NotesMore.fold_keyed df Notes.init NotesMore.init_keyed))
    as [Hall _].
  eapply Forall_impl; [|exact Hall]. intros kv [_ Hv]. exact Hv.
Qed.

(** X3: a frame in which no row starts a block gives the empty notes
    map. *)
Theorem no_marker_no_notes : forall df,
  forallb (fun r => negb (Notes.starts_block r)) df = true ->
  Notes.parse_notes df = [].
Proof.
  intros df H. unfold Notes.parse_notes.
  rewrite NotesMore.fold_outside; [reflexivity | reflexivity | exact H].
Qed.

Lemma no_marker_no_notes_witness : Notes.parse_notes example_rows = [].
Proof.
  apply (no_marker_no_notes example_rows). vm_compute. reflexivity.
Defined.





(** X6: on a frame without missing cells, the frame that [build_tree]
    passes, every entry of the notes map is the stripped description of
    one marker row, filed under the first two characters of that row's
    stripped header. *)
Theorem filled_frame_notes_are_marker_rows : forall df,
  Forall (noted df) (Notes.parse_notes (as_cells df)).
Proof.
  intros df. unfold Notes.parse_notes.
  apply NotesMore.flush_noted.
  apply NotesMore.fold_noted; [apply incl_refl|].
  split; [constructor | now left].
Qed.

(** ** The builder *)

(** For a fixed notes map the loop ignores the rows that it skips (no
    header, no description, or a notes marker in the description): the
    tree built from a frame is the tree built from its other rows. *)
Lemma loop_ignores_skipped_rows : forall chapter_notes df,
  Build.build chapter_notes df
    = Build.build chapter_notes (filter (fun r => negb (skipped r)) df).
Proof.
  intros chapter_notes df. unfold Build.build.
  generalize (@nil (string * Node)).
  induction df as [|row df IH]; intros t; simpl; [reflexivity|].
  destruct (skipped row) eqn:E; simpl.
  - rewrite BuildMore.process_row_skipped by exact E. apply IH.
  - apply IH.
Qed.

Lemma map_filter_comm : forall (A B : Type) (f : A -> B) (p : B -> bool) l,
  map f (filter (fun x => p (f x)) l) = filter p (map f l).
Proof.
  intros A B f p. induction l as [|x l IH]; simpl; [reflexivity|].
  destruct (p (f x)); simpl; now rewrite IH.
Qed.

Lemma filter_read_then_data : forall df,
  filter (fun r => negb (skipped r)) (filter (fun r => negb (unread r)) df)
    = filter (fun r => negb (skipped r)) df.
Proof.
  induction df as [|r df IH]; simpl; [reflexivity|].
  unfold unread at 1.
  destruct (skipped r) eqn:E; simpl.
  - destruct (Notes.starts_block (row_map Str r)); simpl; [rewrite E|]; exact IH.
  - rewrite E. simpl. now rewrite IH.
Qed.

(** X7: the rows that neither pass reads do not matter to [build_tree]:
    dropping from the table every row that the builder skips and that
    starts no note block changes neither the tree nor the notes map that
    a build writes. *)
Theorem unread_rows_do_not_matter : forall table old_tree old_notes,
  let table' := filter (fun r => negb (unread (row_map fillna_cell r))) table in
  Build.tree_json (Build.build_body (Build.mkFiles table' old_tree old_notes))
    = Build.tree_json (Build.build_body (Build.mkFiles table old_tree old_notes))
  /\ Build.notes_json (Build.build_body (Build.mkFiles table' old_tree old_notes))
     = Build.notes_json (Build.build_body (Build.mkFiles table old_tree old_notes)).
Proof.
  intros table old_tree old_notes table'.
  cbn [Build.build_body Build.tree_json Build.notes_json Build.input_csv].
  unfold table', fillna.
  rewrite (map_filter_comm _ _ (row_map fillna_cell) (fun r => negb (unread r))).
  set (df := map (row_map fillna_cell) table).
  assert (Hn : Notes.parse_notes (as_cells (filter (fun r => negb (unread r)) df))
               = Notes.parse_notes (as_cells df)).
  { unfold Notes.parse_notes. symmetry.
    apply NotesMore.filled_notes_ignore; [|reflexivity].
    intros r Hr. unfold unread. rewrite Hr. now rewrite andb_false_r. }
  rewrite Hn. split; [|reflexivity]. f_equal.
  rewrite (loop_ignores_skipped_rows _ (filter (fun r => negb (unread r)) df)).
  rewrite filter_read_then_data.
  symmetry. apply loop_ignores_skipped_rows.
Qed.

(** X8: a row that starts a note block in [parse_notes] is skipped by the
    builder: it changes no tree. *)
Theorem marker_rows_build_nothing : forall chapter_notes hs_tree row,
  Notes.starts_block (row_map Str row) = true ->
  Build.process_row chapter_notes hs_tree row = hs_tree.
Proof.
  intros chapter_notes hs_tree row H.
  apply BuildMore.process_row_skipped.
  unfold Notes.starts_block in H. apply andb_true_iff in H. destruct H as [H _].
  cbn [row_map DESCRIPTION py_str] in H.
  apply PyStrMore.marker_holds_notes in H.
  unfold skipped. rewrite H. now rewrite orb_true_r.
Qed.

Lemma marker_rows_build_nothing_witness :
  Build.process_row [] example_tree
    (mkRow "01" "" "" "Chapter Notes." "" "" "") = example_tree.
Proof.
  apply (marker_rows_build_nothing [] example_tree
           (mkRow "01" "" "" "Chapter Notes." "" "" "")).
  vm_compute. reflexivity.
Defined.

(** X9: every group of the built tree carries as its notes exactly what
    the notes map holds under the group's code, and nothing when the map
    has no such key. *)
Theorem group_notes_come_from_the_map : forall chapter_notes df,
  Forall (notes_from chapter_notes) (Build.build chapter_notes df).
Proof.
  intros chapter_notes df. unfold Build.build.
  assert (H : Forall (notes_from chapter_notes) []) by constructor.
  revert H. generalize (@nil (string * Node)).
  induction df as [|row df IH]; intros t Ht; simpl; [exact Ht|].
  apply IH. now apply BuildMore.process_row_notes_from.
Qed.

(** X10: the built tree is at most four levels deep, and its nodes have
    the shape of their depth: groups, headings and subheadings carry no
    rate, headings and subheadings no notes, and the nodes at depth four
    carry the three rates and have no children. *)
Theorem built_tree_has_four_levels : forall chapter_notes df,
  shaped 0 (Build.build chapter_notes df) = true
  /\ height (root_of (Build.build chapter_notes df)) <= 4.
Proof.
  intros chapter_notes df.
  pose proof (BuildMore.build_shaped chapter_notes df) as H.
  split; [exact H|].
  apply (ShapeFacts.shaped_height 4 0); [reflexivity | exact H].
Qed.

(** X11: the last leaf row with given HEADER, SUB and ITEM wins: if no
    later leaf row has the same three fields, the built tree holds, under
    the four keys of the row, the leaf with the row's stripped description
    and its three rates. *)
Theorem last_leaf_row_wins : forall chapter_notes pre row post,
  is_leaf_row row = true ->
  (forall r', In r' post -> is_leaf_row r' = true -> ~ same_codes row r') ->
  find (Build.build chapter_notes (pre ++ row :: post)) (slot row)
    = Some (leaf_of row).
Proof.
  intros chapter_notes pre row post Hleaf Hpost.
  unfold Build.build. rewrite fold_left_app. simpl.
  pose proof (PathFacts.process_row_files_leaf chapter_notes
                (fold_left (Build.process_row chapter_notes) pre []) row Hleaf) as H.
  revert H.
  generalize (Build.process_row chapter_notes
                (fold_left (Build.process_row chapter_notes) pre []) row).
  induction post as [|r' post IH]; intros t H; simpl; [exact H|].
  apply IH.
  - intros r Hr. apply Hpost. now right.
  - apply (PathFacts.process_row_keeps chapter_notes r'
             (substring 0 2 (HEADER row)) (HEADER row)
             (HEADER row ++ SUB row) (HEADER row ++ SUB row ++ ITEM row));
      [|exact H].
    intros [Hl Hslot].
    apply (Hpost r' (or_introl eq_refl) Hl).
    unfold slot in Hslot. injection Hslot as _ Hh Hs Hf.
    rewrite Hh in Hs, Hf.
    apply PyStrMore.append_inj_l in Hs. rewrite Hs in Hf.
    apply PyStrMore.append_inj_l in Hf.
    apply PyStrMore.append_inj_l in Hf.
    repeat split; congruence.
Qed.

Lemma last_leaf_row_wins_witness :
  find (Build.build [] (title_part ++ horse_row :: [ass_row])) (slot horse_row)
    = Some (leaf_of horse_row).
Proof.
  apply (last_leaf_row_wins [] title_part horse_row [ass_row]).
  - vm_compute. reflexivity.
  - intros r' [<-|[]] _ [_ [_ H]]. vm_compute in H. discriminate H.
Defined.

(** X12: rows never remove nor reorder groups: the group codes of the tree
    built from a frame are, in order, the first group codes of the tree
    built from the frame with more rows after it. *)
Theorem groups_are_only_appended : forall chapter_notes df more,
  exists l,
    keys (Build.build chapter_notes (df ++ more))
      = keys (Build.build chapter_notes df) ++ l.
Proof.
  intros chapter_notes df more. unfold Build.build. rewrite fold_left_app.
  generalize (fold_left (Build.process_row chapter_notes) df []).
  induction more as [|row more IH]; intros t; simpl.
  - exists []. now rewrite app_nil_r.
  - destruct (BuildMore.keys_process_row chapter_notes t row) as [l1 Hl1].
    destruct (IH (Build.process_row chapter_notes t row)) as [l2 Hl2].
    exists (l1 ++ l2). now rewrite Hl2, Hl1, app_assoc.
Qed.

(** X13: the first prompt of a classification on a built tree lists every
    group with an empty description. *)
Theorem first_prompt_shows_no_description : forall chapter_notes df O o q,
  Forall (fun c => choice_description c = "")
    (prompt_choices
       (prompt_of O q (start O (Build.build chapter_notes df) o))).
Proof.
  intros chapter_notes df O o q.
  cbn [prompt_of prompt_choices start current_node_dict root_of children].
  unfold choices_of. rewrite Forall_map. cbn [choice_description].
  exact (GroupDescription.build_undescribed chapter_notes df).
Qed.

(** ** The navigation loop *)

(** X14: after [n] validated steps the path has [n] entries and leads,
    code by code from the root, to the current node, each entry recording
    the description of the node it enters; after the first step the
    breadcrumb is the join of those descriptions. *)
Theorem path_traces_the_descent : forall O ask hs_tree o q n st,
  iterate O ask n q (start O hs_tree o) = Some st ->
  List.length (classification_path st) = n
  /\ trace (root_of hs_tree) (classification_path st)
     = Some (current_node_dict st)
  /\ current_path_str st
     = match n with
       | 0 => "Start"
       | S _ => breadcrumb (classification_path st)
       end.
Proof.
  intros O ask hs_tree o q n st H.
  exact (ClassifyMore.descent_invariant O ask hs_tree o q n st H).
Qed.

Lemma path_traces_the_descent_witness :
  List.length (classification_path after_two_steps) = 2
  /\ trace (root_of example_tree) (classification_path after_two_steps)
     = Some (current_node_dict after_two_steps)
  /\ current_path_str after_two_steps
     = breadcrumb (classification_path after_two_steps).
Proof.
  apply (path_traces_the_descent (list string) scripted example_tree
           bad_script "q" 2 after_two_steps).
  vm_compute. reflexivity.
Defined.

(** X15: a result is returned only for a complete descent: its query is
    the query of the call, its path is not empty, no longer than the tree
    is high, and leads from the root to a node without children;
    [final_hs_code] is the code of its last step and [tariff_details] are
    what [.get] finds on that node. *)
Theorem result_is_a_complete_descent :
  forall O ask fuel hs_tree o q q' path code td,
  classify_product O ask fuel hs_tree o q = Some (FinalResult q' path code td) ->
  q' = q
  /\ 1 <= List.length path <= height (root_of hs_tree)
  /\ exists node s,
       trace (root_of hs_tree) path = Some node
       /\ children node = []
       /\ last_step path = Some s
       /\ code = step_code s
       /\ td = mkTariff (import_rate node) (export_rate node) (sst_rate node).
Proof.
  intros O ask fuel hs_tree o q q' path code td H.
  exact (ClassifyMore.result_descent O ask fuel hs_tree o q q' path code td H).
Qed.

Lemma result_is_a_complete_descent_witness :
  "q" = "q"
  /\ 1 <= List.length (classification_path at_leaf) <= height (root_of example_tree)
  /\ exists node s,
       trace (root_of example_tree) (classification_path at_leaf) = Some node
       /\ children node = []
       /\ last_step (classification_path at_leaf) = Some s
       /\ "01012110" = step_code s
       /\ mkTariff (Some "0%") (Some "0%") (Some "Free")
          = mkTariff (import_rate node) (export_rate node) (sst_rate node).
Proof.
  apply (result_is_a_complete_descent (list string) scripted 5 example_tree
           leaf_script "q" "q" (classification_path at_leaf) "01012110"
           (mkTariff (Some "0%") (Some "0%") (Some "Free"))).
  vm_compute. reflexivity.
Defined.

(** X16: on a non-empty tree the call never raises: with fuel above the
    height of the tree it always returns, and what it returns is a result
    or the invalid-choice error object; so the [IndexError] of the last
    statements occurs on the empty tree only. *)
Theorem nonempty_tree_never_raises : forall O ask hs_tree o q,
  hs_tree <> [] ->
  (forall fuel,
      exists outcome,
        classify_product O ask (S (height (root_of hs_tree) + fuel)) hs_tree o q
          = Some outcome
        /\ ((exists path code td, outcome = FinalResult q path code td)
            \/ outcome = ErrorObject invalid_code_error))
  /\ (forall fuel e,
         classify_product O ask fuel hs_tree o q <> Some (Raised e)).
Proof.
  intros O ask hs_tree o q Hne. split.
  - intros fuel.
    destruct (ClassifyFacts.loop_ends O ask (height (root_of hs_tree)) q
                (start O hs_tree o) (le_n _)) as [n [st [Hn Hend]]].
    assert (Hle : n <= height (root_of hs_tree))
      by (destruct Hend as [[_ H] | [_ [H _]]]; lia).
    unfold classify_product.
    replace (S (height (root_of hs_tree) + fuel))
      with (n + S (height (root_of hs_tree) - n + fuel)) by lia.
    rewrite (ClassifyFacts.while_loop_iterate O ask n _ q _ st Hn).
    destruct Hend as [[Hc _] | [Hc [_ Hbad]]].
    + rewrite ClassifyFacts.while_loop_childless by exact Hc.
      eexists. split; [reflexivity|]. left.
      unfold final_result.
      destruct (last_step (classification_path st)) as [s|] eqn:Hs.
      * do 3 eexists. reflexivity.
      * exfalso. apply ClassifyMore.last_step_none in Hs.
        pose proof (ClassifyFacts.iterate_path_length O ask n q _ st Hn) as Hl.
        rewrite Hs in Hl. simpl in Hl. assert (n = 0) by lia. subst n.
        simpl in Hn. injection Hn as <-. apply Hne. exact Hc.
    + rewrite ClassifyFacts.while_loop_invalid by assumption.
      eexists. split; [reflexivity|]. now right.
  - intros fuel e H. unfold classify_product in H.
    destruct (ClassifyMore.while_loop_outcome O ask fuel q _ _ H)
      as [n [st [Hn [[Hc Hr] | [_ [_ Hr]]]]]]; [|discriminate Hr].
    unfold final_result in Hr.
    destruct (last_step (classification_path st)) as [s|] eqn:Hs; [discriminate Hr|].
    apply ClassifyMore.last_step_none in Hs.
    pose proof (ClassifyFacts.iterate_path_length O ask n q _ st Hn) as Hl.
    rewrite Hs in Hl. simpl in Hl. assert (n = 0) by lia. subst n.
    simpl in Hn. injection Hn as <-. apply Hne. exact Hc.
Qed.

Lemma nonempty_tree_never_raises_witness :
  (forall fuel,
      exists outcome,
        classify_product unit first_choice
          (S (height (root_of example_tree) + fuel)) example_tree tt "q"
          = Some outcome
        /\ ((exists path code td, outcome = FinalResult "q" path code td)
            \/ outcome = ErrorObject invalid_code_error))
  /\ (forall fuel e,
         classify_product unit first_choice fuel example_tree tt "q"
           <> Some (Raised e)).
Proof.
  apply (nonempty_tree_never_raises unit first_choice example_tree tt "q").
  vm_compute. discriminate.
Defined.

(** X17: an error object is returned only when the oracle has answered a
    code that is not a child of the node it was asked about, and it is
    always the same one. *)
Theorem error_object_means_invalid_answer :
  forall O ask fuel hs_tree o q msg,
  classify_product O ask fuel hs_tree o q = Some (ErrorObject msg) ->
  msg = invalid_code_error
  /\ exists n st,
       iterate O ask n q (start O hs_tree o) = Some st
       /\ children (current_node_dict st) <> []
       /\ Dict.mem (children (current_node_dict st)) (answer O ask q st) = false.
Proof.
  intros O ask fuel hs_tree o q msg H.
  unfold classify_product in H.
  destruct (ClassifyMore.while_loop_outcome O ask fuel q _ _ H)
    as [n [st [Hn [[Hc Hr] | [Hc [Hbad Hr]]]]]].
  - unfold final_result in Hr.
    destruct (last_step (classification_path st)); discriminate Hr.
  - injection Hr as ->. split; [reflexivity|].
    exists n, st. repeat split; assumption.
Qed.

Lemma error_object_means_invalid_answer_witness :
  invalid_code_error = invalid_code_error
  /\ exists n st,
       iterate (list string) scripted n "q"
         (start (list string) example_tree bad_script) = Some st
       /\ children (current_node_dict st) <> []
       /\ Dict.mem (children (current_node_dict st))
            (answer (list string) scripted "q" st) = false.
Proof.
  apply (error_object_means_invalid_answer (list string) scripted 5
           example_tree bad_script "q" invalid_code_error).
  vm_compute. reflexivity.
Defined.

(** X18: the validation accepts every code that the prompt lists: when the
    oracle answers one of the listed choices, the pass is completed. *)
Theorem listed_choice_is_accepted : forall O ask q st,
  In (answer O ask q st) (map choice_code (prompt_choices (prompt_of O q st))) ->
  exists st', iteration O ask q st = inl st'.
Proof.
  intros O ask q st H.
  cbn [prompt_of prompt_choices] in H.
  rewrite ClassifyMore.choices_are_keys in H.
  apply ClassifyMore.In_keys_get in H. destruct H as [c Hc].
  unfold answer in Hc. unfold iteration.
  destruct (ask (oracle st) (prompt_of O q st)) as [response o'].
  simpl in Hc. rewrite Hc. eexists. reflexivity.
Qed.

Lemma listed_choice_is_accepted_witness :
  exists st',
    iteration unit first_choice "q" (start unit example_tree tt) = inl st'.
Proof.
  apply (listed_choice_is_accepted unit first_choice "q"
           (start unit example_tree tt)).
  vm_compute. left. reflexivity.
Defined.

(** ** The builder and the navigation together *)

(** X19: on a built tree five tests of the loop condition always suffice:
    every call ends after at most four answers of the oracle. *)
Theorem built_tree_needs_four_answers :
  forall chapter_notes df O ask o q fuel,
  exists outcome,
    classify_product O ask (5 + fuel) (Build.build chapter_notes df) o q
      = Some outcome.
Proof.
  intros chapter_notes df O ask o q fuel.
  pose proof (BuildMore.build_shaped chapter_notes df) as Hs.
  assert (Hh : height (current_node_dict (start O (Build.build chapter_notes df) o)) <= 4)
    by (apply (ShapeFacts.shaped_height 4 0); [reflexivity | exact Hs]).
  destruct (ClassifyFacts.loop_ends O ask 4 q _ Hh) as [n [st [Hn Hend]]].
  unfold classify_product.
  assert (Hle : n <= 4) by (destruct Hend as [[_ H] | [_ [H _]]]; lia).
  replace (5 + fuel) with (n + S (4 - n + fuel)) by lia.
  rewrite (ClassifyFacts.while_loop_iterate O ask n _ q _ st Hn).
  destruct Hend as [[Hc _] | [Hc [_ Hbad]]].
  - eexists. now apply ClassifyFacts.while_loop_childless.
  - eexists. now apply ClassifyFacts.while_loop_invalid.
Qed.

(** X20: on a built tree a result carries the three rates exactly when its
    path has four steps; a result with a shorter path carries none. *)
Theorem rates_come_with_four_steps :
  forall chapter_notes df O ask fuel o q q' path code td,
  classify_product O ask fuel (Build.build chapter_notes df) o q
    = Some (FinalResult q' path code td) ->
  (List.length path = 4
   /\ exists i e s, td = mkTariff (Some i) (Some e) (Some s))
  \/ (List.length path < 4 /\ td = mkTariff None None None).
Proof.
  intros chapter_notes df O ask fuel o q q' path code td H.
  destruct (ClassifyMore.result_descent O ask fuel _ o q q' path code td H)
    as [_ [[Hlo _] [node [s [Ht [_ [_ [_ ->]]]]]]]].
  pose proof (BuildMore.build_shaped chapter_notes df) as Hs.
  assert (Hne : path <> []) by (destruct path; [simpl in Hlo; lia | discriminate]).
  pose proof (ShapeFacts.trace_shape path 0 (root_of (Build.build chapter_notes df))
                node Hs Hne Ht) as Hshape.
  simpl in Hshape. unfold node_shape in Hshape.
  destruct (List.length path) as [|[|[|[|[|n]]]]]; try discriminate Hshape.
  - right. split; [lia|]. unfold no_rates in Hshape.
    destruct (import_rate node), (export_rate node), (sst_rate node);
      try discriminate Hshape; reflexivity.
  - right. split; [lia|]. apply andb_true_iff in Hshape.
    destruct Hshape as [Hshape _]. unfold no_rates in Hshape.
    destruct (import_rate node), (export_rate node), (sst_rate node);
      try discriminate Hshape; reflexivity.
  - right. split; [lia|]. apply andb_true_iff in Hshape.
    destruct Hshape as [Hshape _]. unfold no_rates in Hshape.
    destruct (import_rate node), (export_rate node), (sst_rate node);
      try discriminate Hshape; reflexivity.
  - left. split; [reflexivity|].
    apply andb_true_iff in Hshape. destruct Hshape as [Hshape _].
    apply andb_true_iff in Hshape. destruct Hshape as [Hshape _].
    unfold all_rates in Hshape.
    destruct (import_rate node) as [i|], (export_rate node) as [e|],
             (sst_rate node) as [r|]; try discriminate Hshape.
    now exists i, e, r.
Qed.

Lemma rates_come_with_four_steps_witness :
  (List.length (classification_path at_leaf) = 4
   /\ exists i e s,
        mkTariff (Some "0%") (Some "0%") (Some "Free")
          = mkTariff (Some i) (Some e) (Some s))
  \/ (List.length (classification_path at_leaf) < 4
      /\ mkTariff (Some "0%") (Some "0%") (Some "Free")
         = mkTariff None None None).
Proof.
  apply (rates_come_with_four_steps [] filled_rows (list string) scripted 5
           leaf_script "q" "q" (classification_path at_leaf) "01012110"
           (mkTariff (Some "0%") (Some "0%") (Some "Free"))).
  vm_compute. reflexivity.
Defined.

(** X21: on a built tree the prompt carries legal notes only when the
    choice is among the headings of a group: at the root and from the
    second step on, the notes of the prompt read ["None"]. *)
Theorem notes_are_shown_at_groups_only :
  forall chapter_notes df O ask o q n st,
  iterate O ask n q (start O (Build.build chapter_notes df) o) = Some st ->
  n <> 1 ->
  prompt_parent_notes (prompt_of O q st) = "None".
Proof.
  intros chapter_notes df O ask o q n st H Hn.
  cbn [prompt_of prompt_parent_notes].
  destruct (ClassifyMore.descent_invariant O ask _ o q n st H) as [Hl [Ht _]].
  destruct n as [|n].
  - simpl in H. injection H as <-. reflexivity.
  - assert (Hne : classification_path st <> [])
      by (destruct (classification_path st); [discriminate Hl | discriminate]).
    pose proof (ShapeFacts.trace_shape (classification_path st) 0
                  (root_of (Build.build chapter_notes df)) (current_node_dict st)
                  (BuildMore.build_shaped chapter_notes df) Hne Ht) as Hs.
    simpl in Hs. rewrite Hl in Hs. unfold node_shape in Hs.
    assert (Hnotes : no_notes (current_node_dict st) = true).
    { destruct n as [|[|[|[|n]]]]; try congruence; try discriminate Hs.
      - apply andb_true_iff in Hs. tauto.
      - apply andb_true_iff in Hs. tauto.
      - apply andb_true_iff in Hs. destruct Hs as [Hs _].
        apply andb_true_iff in Hs. tauto. }
    unfold no_notes in Hnotes. unfold notes_or_none.
    destruct (notes (current_node_dict st)); [discriminate Hnotes | reflexivity].
Qed.

Lemma notes_are_shown_at_groups_only_witness :
  prompt_parent_notes (prompt_of (list string) "q" after_two_steps) = "None".
Proof.
  apply (notes_are_shown_at_groups_only [] filled_rows (list string) scripted
           bad_script "q" 2 after_two_steps).
  - vm_compute. reflexivity.
  - discriminate.
Defined.

(** X22: the two programs in sequence: when no tree artifact exists,
    [build_tree] writes one, the constructor of the classifier loads it
    instead of raising, and every call on it ends after at most four
    answers of the oracle. *)
Theorem build_then_classify_ends :
  forall table old_notes O ask o q fuel,
  exists t outcome,
    Loader.init (Build.build_tree (Build.mkFiles table None old_notes)) = inl t
    /\ classify_product O ask (5 + fuel) t o q = Some outcome.
Proof.
  intros table old_notes O ask o q fuel.
  cbn [Build.build_tree Build.tree_json Build.build_body Build.input_csv
       Loader.init].
  set (df := fillna table).
  set (ns := Notes.parse_notes (as_cells df)).
  pose proof (BuildMore.build_shaped ns df) as Hs.
  assert (Hh : height (current_node_dict (start O (Build.build ns df) o)) <= 4)
    by (apply (ShapeFacts.shaped_height 4 0); [reflexivity | exact Hs]).
  destruct (ClassifyFacts.loop_ends O ask 4 q _ Hh) as [n [st [Hn Hend]]].
  assert (Hle : n <= 4) by (destruct Hend as [[_ H] | [_ [H _]]]; lia).
  exists (Build.build ns df).
  assert (Hrun : classify_product O ask (5 + fuel) (Build.build ns df) o q
                 = while_loop O ask (S (4 - n + fuel)) q st).
  { unfold classify_product.
    replace (5 + fuel) with (n + S (4 - n + fuel)) by lia.
    exact (ClassifyFacts.while_loop_iterate O ask n _ q _ st Hn). }
  destruct Hend as [[Hc _] | [Hc [_ Hbad]]].
  - eexists. split; [reflexivity|]. rewrite Hrun.
    now apply ClassifyFacts.while_loop_childless.
  - eexists. split; [reflexivity|]. rewrite Hrun.
    now apply ClassifyFacts.while_loop_invalid.
Qed.

End Extras.

(** * Results that end above the leaf items *)

Module InnerResults.

Import Classify Examples MoreExamples Shape.

(** C10, as stated, fails: it is not the case that every result whose
    code has not eight characters carries no rate.  The leaf row with
    HEADER ["0101"], an empty SUB and ITEM ["10"] is stored as the childless
    leaf item ["010110"], of six characters, and the result that ends
    there carries the row's rates. *)
Lemma C10_short_leaf_item_has_rates :
  ~ (forall rows script q fuel path code td,
        classify_scripted fuel (tree_of rows) script q
          = Some (FinalResult q path code td) ->
        String.length code <> 8 ->
        td = mkTariff None None None).
Proof.
  intros H.
  specialize (H short_leaf_rows short_leaf_script "q" 5).
  vm_compute in H.
  specialize (H _ _ _ eq_refl). 
  assert (Hd : 6 <> 8) by discriminate.
  specialize (H Hd). discriminate H.
Qed.

(** C10, amended: on a built tree, whenever the loop stands, after fewer
    than four validated steps, on a node without children (a group, a
    heading or a subheading, not a leaf item), the call returns a result
    and no error: its path is the path so far, its [final_hs_code] is the
    last answer, the key under which that node is stored, whatever its
    length, and its three rates are all absent. *)
Theorem C10_childless_inner_node_is_a_result :
  forall chapter_notes df O ask o q n st,
  iterate O ask (S n) q (start O (Build.build chapter_notes df) o) = Some st ->
  children (current_node_dict st) = [] ->
  S n < 4 ->
  exists prev code,
    iterate O ask n q (start O (Build.build chapter_notes df) o) = Some prev
    /\ code = answer O ask q prev
    /\ Dict.get (children (current_node_dict prev)) code
       = Some (current_node_dict st)
    /\ forall fuel,
         classify_product O ask (S n + S fuel) (Build.build chapter_notes df) o q
           = Some (FinalResult q (classification_path st) code
                     (mkTariff None None None)).
Proof.
  intros chapter_notes df O ask o q n st Hn Hc Hlt.
  destruct (ClassifyFacts.childless_node_is_final O ask n q _ o st Hn Hc)
    as [prev [Hp [Hg Hfinal]]].
  exists prev, (answer O ask q prev).
  split; [exact Hp|]. split; [reflexivity|]. split; [exact Hg|].
  intros fuel. rewrite Hfinal.
  destruct (ClassifyMore.descent_invariant O ask _ o q (S n) st Hn) as [Hl [Ht _]].
  assert (Hne : classification_path st <> [])
    by (destruct (classification_path st); [discriminate Hl | discriminate]).
  pose proof (ShapeFacts.trace_shape (classification_path st) 0
                (root_of (Build.build chapter_notes df)) (current_node_dict st)
                (BuildMore.build_shaped chapter_notes df) Hne Ht) as Hs.
  simpl in Hs. rewrite Hl in Hs. unfold node_shape in Hs.
  assert (Hr : no_rates (current_node_dict st) = true).
  { destruct n as [|[|[|n]]]; try lia.
    - exact Hs.
    - apply andb_true_iff in Hs. tauto.
    - apply andb_true_iff in Hs. tauto. }
  unfold no_rates in Hr.
  destruct (import_rate (current_node_dict st)),
           (export_rate (current_node_dict st)),
           (sst_rate (current_node_dict st)); try discriminate Hr.
  reflexivity.
Qed.

(** The same on the table whose only row is the title row of subheading
    ["010121"]: the result ends at that subheading, three steps down. *)
Lemma C10_childless_inner_node_is_a_result_witness :
  exists prev code,
    iterate (list string) scripted 2 "q"
      (start (list string) (Build.build [] (fillna subheading_rows))
         subheading_script) = Some prev
    /\ code = answer (list string) scripted "q" prev
    /\ Dict.get (children (current_node_dict prev)) code
       = Some (current_node_dict at_subheading)
    /\ forall fuel,
         classify_product (list string) scripted (3 + S fuel)
           (Build.build [] (fillna subheading_rows)) subheading_script "q"
           = Some (FinalResult "q" (classification_path at_subheading) code
                     (mkTariff None None None)).
Proof.
  apply (C10_childless_inner_node_is_a_result [] (fillna subheading_rows)
           (list string) scripted subheading_script "q" 2 at_subheading).
  - vm_compute. reflexivity.
  - vm_compute. reflexivity.
  - lia.
Defined.

End InnerResults.
